(** * Portfolio backend (app.py, admin.py): a shallow embedding

    The Flask application of [portfolio-backend/app.py] is embedded as
    pure functions over an explicit world: the rows held by the storage
    service, the calls issued to it, the schedule of its failures and the
    session of the client.  Python exceptions are a result type,
    [try/except] is [try_except].  A [str] is a string of bytes: the
    Latin-1 code points of a header, the UTF-8 bytes of a literal. *)

From Stdlib Require Import ZArith List String Ascii Bool Lia.
Import ListNotations.
Set Warnings "-register-all".
Open Scope string_scope.
Open Scope list_scope.
Open Scope Z_scope.

(* ------------------------------------------------------------------ *)
(** ** JSON values and the Python operations the handlers apply to them *)

(** What [request.get_json()] and the storage client hand to the
    handlers.  Numbers are the integers; [JNull] is Python's [None],
    [JObj] a [dict] in insertion order. *)
Inductive json : Type :=
| JNull
| JBool (b : bool)
| JNum (n : Z)
| JStr (s : string)
| JArr (l : list json)
| JObj (kvs : list (string * json)).

Definition row : Type := list (string * json).

Fixpoint json_eqb (a b : json) {struct a} : bool :=
  match a, b with
  | JNull, JNull => true
  | JBool x, JBool y => Bool.eqb x y
  | JNum x, JNum y => Z.eqb x y
  | JStr x, JStr y => String.eqb x y
  | JArr xs, JArr ys =>
      (fix go (xs ys : list json) {struct xs} : bool :=
         match xs, ys with
         | [], [] => true
         | x :: xs', y :: ys' => json_eqb x y && go xs' ys'
         | _, _ => false
         end) xs ys
  | JObj xs, JObj ys =>
      (fix go (xs ys : list (string * json)) {struct xs} : bool :=
         match xs, ys with
         | [], [] => true
         | (k, x) :: xs', (k', y) :: ys' =>
             String.eqb k k' && json_eqb x y && go xs' ys'
         | _, _ => false
         end) xs ys
  | _, _ => false
  end.

(** [d.get(k)] / [d[k]] on a dict. *)
Fixpoint dict_get (k : string) (d : row) : option json :=
  match d with
  | [] => None
  | (k', v) :: d' => if String.eqb k k' then Some v else dict_get k d'
  end.

(** [k in d] on a dict. *)
Definition dict_has (k : string) (d : row) : bool :=
  match dict_get k d with Some _ => true | None => false end.

(** [d[k] = v]: the key keeps its place when it is there already. *)
Fixpoint dict_set (k : string) (v : json) (d : row) : row :=
  match d with
  | [] => [(k, v)]
  | (k', v') :: d' =>
      if String.eqb k k' then (k, v) :: d' else (k', v') :: dict_set k v d'
  end.

(** [d.update(patch)]. *)
Definition dict_update (patch d : row) : row :=
  fold_left (fun acc kv => dict_set (fst kv) (snd kv) acc) patch d.

(** [needle in hay] on two [str]: substring test. *)
Fixpoint str_contains (needle hay : string) : bool :=
  String.prefix needle hay ||
  match hay with
  | EmptyString => false
  | String _ hay' => str_contains needle hay'
  end.

(** [str.isspace] on the code points a header can carry (Latin-1). *)
Definition isspace (c : ascii) : bool :=
  let n := Z.of_nat (nat_of_ascii c) in
  ((9 <=? n) && (n <=? 13)) || ((28 <=? n) && (n <=? 32))
  || (n =? 133) || (n =? 160).

(** [s.split()] without arguments: the maximal runs of non-whitespace. *)
Fixpoint split_from (cur : string) (s : string) : list string :=
  match s with
  | EmptyString =>
      match cur with EmptyString => [] | _ => [cur] end
  | String c s' =>
      if isspace c then
        match cur with
        | EmptyString => split_from EmptyString s'
        | _ => cur :: split_from EmptyString s'
        end
      else split_from (cur ++ String c EmptyString)%string s'
  end.

Definition split (s : string) : list string := split_from EmptyString s.

(* ------------------------------------------------------------------ *)
(** ** Exceptions *)

Inductive result (A : Type) : Type :=
| Ok (a : A)
| Raise (msg : string).
Arguments Ok {A} a.
Arguments Raise {A} msg.

(** [field in data] for a required field name, by the type of [data]. *)
Definition py_in (field : string) (data : json) : result bool :=
  match data with
  | JObj d => Ok (dict_has field d)
  | JArr l => Ok (existsb (json_eqb (JStr field)) l)
  | JStr s => Ok (str_contains field s)
  | JNull => Raise "argument of type 'NoneType' is not iterable"
  | JBool _ => Raise "argument of type 'bool' is not iterable"
  | JNum _ => Raise "argument of type 'int' is not iterable"
  end.

(** [all(field in data for field in required_fields)]: stops at the
    first field that is missing, raises where [in] raises. *)
Fixpoint all_in (fields : list string) (data : json) : result bool :=
  match fields with
  | [] => Ok true
  | f :: fs =>
      match py_in f data with
      | Raise m => Raise m
      | Ok false => Ok false
      | Ok true => all_in fs data
      end
  end.

(** [data[k] = v] for a string key. *)
Definition py_setitem (k : string) (v : json) (data : json) : result row :=
  match data with
  | JObj d => Ok (dict_set k v d)
  | JArr _ => Raise "list indices must be integers or slices, not str"
  | JStr _ => Raise "'str' object does not support item assignment"
  | JNull => Raise "'NoneType' object does not support item assignment"
  | JBool _ => Raise "'bool' object does not support item assignment"
  | JNum _ => Raise "'int' object does not support item assignment"
  end.

(** [x + 1]: [bool] is a subclass of [int]. *)
Definition py_succ (x : json) : result Z :=
  match x with
  | JNum n => Ok (n + 1)
  | JBool b => Ok ((if b then 1 else 0) + 1)
  | JNull => Raise "unsupported operand type(s) for +: 'NoneType' and 'int'"
  | JStr _ => Raise "can only concatenate str (not 'int') to str"
  | JArr _ => Raise "can only concatenate list (not 'int') to list"
  | JObj _ => Raise "unsupported operand type(s) for +: 'dict' and 'int'"
  end.

(** [d[k]] with its [KeyError]. *)
Definition py_getitem (k : string) (d : row) : result json :=
  match dict_get k d with
  | Some v => Ok v
  | None => Raise k
  end.

(* ------------------------------------------------------------------ *)
(** ** The storage service

    The hosted database behind the [supabase] client is outside the
    repository.  It is modelled as three tables of rows; a query built by
    [supabase.table(t)...] is a value of [query], and [.execute()] runs it
    against the store or raises, as the failure schedule of the world
    says. *)

Inductive table : Type := Projetos | Certificados | Visitas.

Inductive query : Type :=
| Select (t : table) (col : option string)
| SelectEq (t : table) (col : string) (v : json)
| Insert (t : table) (r : row)
| UpdateEq (t : table) (patch : row) (col : string) (v : json)
| DeleteEq (t : table) (col : string) (v : json).

Record Store : Type := mkStore {
  projetos : list row;
  certificados : list row;
  visitas : list row;
  next_id : Z
}.

Definition rows_of (t : table) (s : Store) : list row :=
  match t with
  | Projetos => projetos s
  | Certificados => certificados s
  | Visitas => visitas s
  end.

Definition set_rows (t : table) (rs : list row) (s : Store) : Store :=
  match t with
  | Projetos => mkStore rs (certificados s) (visitas s) (next_id s)
  | Certificados => mkStore (projetos s) rs (visitas s) (next_id s)
  | Visitas => mkStore (projetos s) (certificados s) rs (next_id s)
  end.

(** [.eq(col, v)]: the rows whose column [col] holds [v]. *)
Definition col_eq (col : string) (v : json) (r : row) : bool :=
  match dict_get col r with
  | Some x => json_eqb x v
  | None => false
  end.

(** [.select(col)]: [None] is ["*"]. *)
Definition project_col (col : option string) (r : row) : row :=
  match col with
  | None => r
  | Some c =>
      match dict_get c r with
      | Some v => [(c, v)]
      | None => []
      end
  end.

(** The identity of a new row is given by the service. *)
Definition with_id (n : Z) (r : row) : row :=
  if dict_has "id" r then r else ("id", JNum n) :: r.

(** What a query returns as [response.data], and the store it leaves. *)
Definition run_query (q : query) (s : Store) : list row * Store :=
  match q with
  | Select t col => (map (project_col col) (rows_of t s), s)
  | SelectEq t col v => (filter (col_eq col v) (rows_of t s), s)
  | Insert t r =>
      let r' := with_id (next_id s) r in
      let s' := set_rows t (rows_of t s ++ [r']) s in
      ([r'], mkStore (projetos s') (certificados s') (visitas s')
                     (next_id s + 1))
  | UpdateEq t patch col v =>
      let upd := fun r => if col_eq col v r then dict_update patch r else r in
      (map (dict_update patch) (filter (col_eq col v) (rows_of t s)),
       set_rows t (map upd (rows_of t s)) s)
  | DeleteEq t col v =>
      (filter (col_eq col v) (rows_of t s),
       set_rows t (filter (fun r => negb (col_eq col v r)) (rows_of t s)) s)
  end.

(** ** The world a request runs in *)

Record World : Type := mkWorld {
  store : Store;
  (** the queries sent to the service so far, oldest first *)
  issued : list query;
  (** for each coming [.execute()]: [Some msg] when it raises *)
  faults : list (option string);
  (** the Flask [session] of the client *)
  session : row;
  (** [datetime.utcnow().isoformat()] *)
  utcnow : string
}.

Definition M (A : Type) : Type := World -> result A * World.

Definition ret {A} (a : A) : M A := fun w => (Ok a, w).

Definition bind {A B} (m : M A) (k : A -> M B) : M B :=
  fun w =>
    match m w with
    | (Ok a, w') => k a w'
    | (Raise e, w') => (Raise e, w')
    end.

Definition lift {A} (r : result A) : M A := fun w => (r, w).

Notation "x <- m ;; k" := (bind m (fun x => k))
  (at level 61, m at next level, right associativity).

(** [try: m  except Exception as e: h e]. *)
Definition try_except {A} (m : M A) (h : string -> A) : World -> A * World :=
  fun w =>
    match m w with
    | (Ok a, w') => (a, w')
    | (Raise e, w') => (h e, w')
    end.

Definition execute (q : query) : M (list row) :=
  fun w =>
    let log := issued w ++ [q] in
    match faults w with
    | Some msg :: fs =>
        (Raise msg, mkWorld (store w) log fs (session w) (utcnow w))
    | None :: fs =>
        let (data, s') := run_query q (store w) in
        (Ok data, mkWorld s' log fs (session w) (utcnow w))
    | [] =>
        let (data, s') := run_query q (store w) in
        (Ok data, mkWorld s' log [] (session w) (utcnow w))
    end.

Definition now_isoformat : M string := fun w => (Ok (utcnow w), w).


(* ------------------------------------------------------------------ *)
(** ** Requests and responses *)

Inductive Method : Type := GET | POST | PUT | DELETE | PATCH.

(** The JSON body of a request, when it has one. *)
Inductive Payload : Type :=
| PayloadJson (j : json)
| PayloadAbsent.

Record Request : Type := mkRequest {
  method : Method;
  (** the URL path, cut at its slashes *)
  path : list string;
  (** [request.headers.get("Authorization")] *)
  authorization : option string;
  payload : Payload;
  (** [request.form.get("password")] *)
  form_password : option string;
  (** [request.args.get("origem")] *)
  arg_origem : option string
}.

Inductive Body : Type :=
| BJson (j : json)
| BHtml (html : string)
| BRedirect (location : string).

Record Response : Type := mkResponse {
  status : Z;
  body : Body
}.

Definition Handler : Type := World -> Response * World.

(** [jsonify({"error": msg}), code]. *)
Definition json_error (msg : string) (code : Z) : Response :=
  mkResponse code (BJson (JObj [("error", JStr msg)])).

(** [jsonify({"message": msg}), code]. *)
Definition json_message (msg : string) (code : Z) : Response :=
  mkResponse code (BJson (JObj [("message", JStr msg)])).

(** [jsonify(response.data), code]. *)
Definition json_rows (data : list row) (code : Z) : Response :=
  mkResponse code (BJson (JArr (map JObj data))).

(** [redirect(url_for(...))]. *)
Definition redirect (location : string) : Response :=
  mkResponse 302 (BRedirect location).

(** Truth value of a Python object, as [if x:] takes it. *)
Definition truthy (x : json) : bool :=
  match x with
  | JNull => false
  | JBool b => b
  | JNum n => negb (n =? 0)
  | JStr s => negb (String.eqb s "")
  | JArr l => match l with [] => false | _ => true end
  | JObj d => match d with [] => false | _ => true end
  end.

(** [d.pop(k, None)]. *)
Fixpoint dict_pop (k : string) (d : row) : row :=
  match d with
  | [] => []
  | (k', v) :: d' =>
      if String.eqb k k' then d' else (k', v) :: dict_pop k d'
  end.

(** What the process reads from its environment and its directory. *)
Record Config : Type := mkConfig {
  (** [os.getenv("ADMIN_PASSWORD", "admin123")] *)
  ADMIN_PASSWORD : string;
  (** [os.path.exists] of a file of the [templates] directory *)
  template_exists : string -> bool;
  (** [render_template(name, error=...)] *)
  render_template : string -> option string -> result string;
  (** Flask before 2.1: [get_json()] is [None] when the request has no
      JSON body; later versions raise there *)
  get_json_returns_none : bool
}.

(** The integer converter of the URL map: decimal digits only. *)
Definition digit_of (c : ascii) : option Z :=
  let n := Z.of_nat (nat_of_ascii c) in
  if (48 <=? n) && (n <=? 57) then Some (n - 48) else None.

Fixpoint int_from (acc : Z) (s : string) : option Z :=
  match s with
  | EmptyString => Some acc
  | String c s' =>
      match digit_of c with
      | Some d => int_from (10 * acc + d) s'
      | None => None
      end
  end.

Definition int_converter (s : string) : option Z :=
  match s with
  | EmptyString => None
  | _ => int_from 0 s
  end.

(** [session[k] = v] and [session.pop(k, None)]. *)
Definition set_session (k : string) (v : json) (w : World) : World :=
  mkWorld (store w) (issued w) (faults w) (dict_set k v (session w))
          (utcnow w).

Definition pop_session (k : string) (w : World) : World :=
  mkWorld (store w) (issued w) (faults w) (dict_pop k (session w))
          (utcnow w).

(** [session.clear()]. *)
Definition clear_session (w : World) : World :=
  mkWorld (store w) (issued w) (faults w) [] (utcnow w).

(* ------------------------------------------------------------------ *)
(** ** app.py *)

Module App.
Section Handlers.

Variable cfg : Config.

(** [request.get_json()]. *)
Definition get_json (req : Request) : M json :=
  match payload req with
  | PayloadJson j => ret j
  | PayloadAbsent =>
      if get_json_returns_none cfg then ret JNull
      else lift (Raise "415 Unsupported Media Type: Did not attempt to load JSON data because the request Content-Type was not 'application/json'.")
  end.

Definition require_auth (f : Handler) (req : Request) : Handler :=
  fun w =>
    match authorization req with
    | None => (json_error "Missing Authorization header" 401, w)
    | Some auth_header =>
        if String.eqb auth_header "" then
          (json_error "Missing Authorization header" 401, w)
        else
          match split auth_header with
          | [p0; p1] =>
              if negb (String.eqb p0 "Bearer") then
                (json_error "Invalid Authorization header" 401, w)
              else if negb (String.eqb p1 (ADMIN_PASSWORD cfg)) then
                (json_error "Unauthorized" 401, w)
              else f w
          | _ => (json_error "Invalid Authorization header" 401, w)
          end
    end.

Definition health_check : Handler :=
  fun w =>
    (mkResponse 200
       (BJson (JObj [("status", JStr "ok");
                     ("message", JStr "Portfolio API is running")])), w).

Definition on_error (e : string) : Response := json_error e 500.

(** [get_projects] and the unfiltered [get_certificates]. *)
Definition list_all (t : table) : Handler :=
  try_except
    (data <- execute (Select t None) ;;
     ret (json_rows data 200))
    on_error.

Definition get_projects : Handler := list_all Projetos.

(** [create_project] and [create_certificate] differ in the table and
    in the required fields. *)
Definition create (t : table) (required_fields : list string)
    (req : Request) : Handler :=
  try_except
    (data <- get_json req ;;
     ok <- lift (all_in required_fields data) ;;
     if negb ok then ret (json_error "Missing required fields" 400)
     else
       stamp <- now_isoformat ;;
       data' <- lift (py_setitem "created_at" (JStr stamp) data) ;;
       rows <- execute (Insert t data') ;;
       ret (json_rows rows 201))
    on_error.

Definition project_fields : list string :=
  ["titulo"; "descricao"; "tecnologias"].

Definition certificate_fields : list string :=
  ["nome"; "instituicao"; "data_conclusao"].

Definition create_project : Request -> Handler :=
  create Projetos project_fields.

Definition create_certificate : Request -> Handler :=
  create Certificados certificate_fields.

(** [get_project] and [get_certificate]. *)
Definition get_one (t : table) (missing : string) (id : Z) : Handler :=
  try_except
    (data <- execute (SelectEq t "id" (JNum id)) ;;
     match data with
     | [] => ret (json_error missing 404)
     | r :: _ => ret (mkResponse 200 (BJson (JObj r)))
     end)
    on_error.

Definition get_project : Z -> Handler := get_one Projetos "Project not found".

Definition get_certificate : Z -> Handler :=
  get_one Certificados "Certificate not found".

(** [update_project] and [update_certificate]. *)
Definition update (t : table) (missing : string) (id : Z)
    (req : Request) : Handler :=
  try_except
    (data <- get_json req ;;
     stamp <- now_isoformat ;;
     data' <- lift (py_setitem "updated_at" (JStr stamp) data) ;;
     rows <- execute (UpdateEq t data' "id" (JNum id)) ;;
     match rows with
     | [] => ret (json_error missing 404)
     | r :: _ => ret (mkResponse 200 (BJson (JObj r)))
     end)
    on_error.

Definition update_project : Z -> Request -> Handler :=
  update Projetos "Project not found".

Definition update_certificate : Z -> Request -> Handler :=
  update Certificados "Certificate not found".

(** [delete_project] and [delete_certificate]: the rows the service
    reports as deleted are not looked at. *)
Definition delete (t : table) (done : string) (id : Z) : Handler :=
  try_except
    (_ <- execute (DeleteEq t "id" (JNum id)) ;;
     ret (json_message done 200))
    on_error.

Definition delete_project : Z -> Handler :=
  delete Projetos "Project deleted successfully".

Definition delete_certificate : Z -> Handler :=
  delete Certificados "Certificate deleted successfully".

Definition get_certificates (req : Request) : Handler :=
  try_except
    (data <-
       match arg_origem req with
       | Some origem =>
           if truthy (JStr origem)
           then execute (SelectEq Certificados "origem" (JStr origem))
           else execute (Select Certificados None)
       | None => execute (Select Certificados None)
       end ;;
     ret (json_rows data 200))
    on_error.

Definition json_total (v : json) (code : Z) : Response :=
  mkResponse code (BJson (JObj [("total", v)])).

Definition get_visits : Handler :=
  try_except
    (data <- execute (Select Visitas (Some "total")) ;;
     match data with
     | r :: _ =>
         total <- lift (py_getitem "total" r) ;;
         ret (json_total total 200)
     | [] => ret (json_total (JNum 0) 200)
     end)
    on_error.

Definition increment_visits : Handler :=
  try_except
    (data <- execute (Select Visitas None) ;;
     match data with
     | r :: _ =>
         current_total <- lift (py_getitem "total" r) ;;
         new_total <- lift (py_succ current_total) ;;
         id <- lift (py_getitem "id" r) ;;
         _ <- execute (UpdateEq Visitas [("total", JNum new_total)] "id" id) ;;
         ret (json_total (JNum new_total) 200)
     | [] =>
         _ <- execute (Insert Visitas [("total", JNum 1)]) ;;
         ret (json_total (JNum 1) 201)
     end)
    on_error.

Definition not_found : Handler :=
  fun w => (json_error "Endpoint not found" 404, w).

Definition internal_error : Handler :=
  fun w => (json_error "Internal server error" 500, w).

(** The reply of Flask itself to a method the route does not list. *)
Definition method_not_allowed : Handler :=
  fun w => (mkResponse 405 (BHtml "Method Not Allowed"), w).

Definition login_error : string := "Senha inválida".

(** The [else] branch of the login POST in [index]. *)
Definition invalid_password : Handler :=
  fun w =>
    if template_exists cfg "login.html" then
      match render_template cfg "login.html" (Some login_error) with
      | Ok html => (mkResponse 200 (BHtml html), w)
      | Raise _ => (json_error login_error 401, w)
      end
    else (json_error login_error 401, w).

Definition api_description : Response :=
  mkResponse 200
    (BJson (JObj
       [("message", JStr "Portfolio API — use /health or /api/projetos");
        ("endpoints",
         JArr [JStr "/health"; JStr "/api/projetos";
               JStr "/api/certificados"; JStr "/api/visitas"])])).

Definition index (req : Request) : Handler :=
  fun w =>
    match method req with
    | POST =>
        match form_password req with
        | Some password =>
            if truthy (JStr password)
               && String.eqb password (ADMIN_PASSWORD cfg)
            then (redirect "/admin", set_session "logged_in" (JBool true) w)
            else invalid_password w
        | None => invalid_password w
        end
    | _ =>
        if template_exists cfg "login.html" then
          match render_template cfg "login.html" None with
          | Ok html => (mkResponse 200 (BHtml html), w)
          | Raise _ => (api_description, w)
          end
        else (api_description, w)
    end.

Definition admin_dashboard : Handler :=
  fun w =>
    match dict_get "logged_in" (session w) with
    | Some flag =>
        if truthy flag then
          if template_exists cfg "admin_dashboard.html" then
            match render_template cfg "admin_dashboard.html" None with
            | Ok html => (mkResponse 200 (BHtml html), w)
            | Raise _ => (json_message "Admin dashboard" 200, w)
            end
          else (json_message "Admin dashboard" 200, w)
        else (redirect "/", w)
    | None => (redirect "/", w)
    end.

Definition admin_logout : Handler :=
  fun w => (redirect "/", pop_session "logged_in" w).

(** *** The URL map *)

Inductive endpoint : Type :=
| EHealth
| EProjetos
| EProjeto (id : Z)
| ECertificados
| ECertificado (id : Z)
| EVisitas
| EIndex
| EAdmin
| EAdminLogout.

Definition url_map (p : list string) : option endpoint :=
  match p with
  | [] => Some EIndex
  | [a] =>
      if String.eqb a "health" then Some EHealth
      else if String.eqb a "admin" then Some EAdmin
      else None
  | [a; b] =>
      if String.eqb a "api" then
        if String.eqb b "projetos" then Some EProjetos
        else if String.eqb b "certificados" then Some ECertificados
        else if String.eqb b "visitas" then Some EVisitas
        else None
      else if String.eqb a "admin" && String.eqb b "logout"
      then Some EAdminLogout
      else None
  | [a; b; c] =>
      if String.eqb a "api" then
        if String.eqb b "projetos" then option_map EProjeto (int_converter c)
        else if String.eqb b "certificados"
        then option_map ECertificado (int_converter c)
        else None
      else None
  | _ => None
  end.

(** The view a request reaches: the route table of the decorators. *)
Definition dispatch (req : Request) : Handler :=
  match url_map (path req) with
  | None => not_found
  | Some e =>
      match e, method req with
      | EHealth, GET => health_check
      | EProjetos, GET => get_projects
      | EProjetos, POST => require_auth (create_project req) req
      | EProjeto id, GET => get_project id
      | EProjeto id, PUT => require_auth (update_project id req) req
      | EProjeto id, DELETE => require_auth (delete_project id) req
      | ECertificados, GET => get_certificates req
      | ECertificados, POST => require_auth (create_certificate req) req
      | ECertificado id, GET => get_certificate id
      | ECertificado id, PUT => require_auth (update_certificate id req) req
      | ECertificado id, DELETE => require_auth (delete_certificate id) req
      | EVisitas, GET => get_visits
      | EVisitas, POST => increment_visits
      | EIndex, GET => index req
      | EIndex, POST => index req
      | EAdmin, GET => admin_dashboard
      | EAdminLogout, POST => admin_logout
      | _, _ => method_not_allowed
      end
  end.

End Handlers.
End App.

(* ------------------------------------------------------------------ *)
(** ** admin.py: the login flow of the admin interface *)

Module Admin.
Section Handlers.

Variable cfg : Config.

Definition login_required (f : Handler) : Handler :=
  fun w =>
    if dict_has "authenticated" (session w) then f w
    else (redirect "/admin/login", w).

Definition internal_error : Handler :=
  fun w => (json_error "Internal server error" 500, w).

(** [return render_template(...)]: the views of admin.py do not catch
    what the rendering raises, the 500 handler of the application
    answers then. *)
Definition render (name : string) (error : option string) : Handler :=
  fun w =>
    match render_template cfg name error with
    | Ok html => (mkResponse 200 (BHtml html), w)
    | Raise _ => internal_error w
    end.

Definition login (req : Request) : Handler :=
  fun w =>
    match method req with
    | POST =>
        let matches :=
          match form_password req with
          | Some password => String.eqb password (ADMIN_PASSWORD cfg)
          | None => false
          end in
        if matches
        then (redirect "/admin", set_session "authenticated" (JBool true) w)
        else render "login.html" (Some "Invalid password") w
    | _ => render "login.html" None w
    end.

Definition logout : Handler :=
  fun w => (redirect "/admin/login", clear_session w).

Definition admin_dashboard : Handler :=
  login_required (render "admin_dashboard.html" None).

(** The views of the admin API: the bodies are those of app.py, behind
    the session check instead of the bearer check.  The two listings,
    which ask the service for an ordering, are left out. *)
Definition admin_create_project (req : Request) : Handler :=
  login_required (App.create cfg Projetos App.project_fields req).

Definition admin_update_project (id : Z) (req : Request) : Handler :=
  login_required (App.update cfg Projetos "Project not found" id req).

Definition admin_delete_project (id : Z) : Handler :=
  login_required (App.delete Projetos "Project deleted successfully" id).

Definition admin_create_certificate (req : Request) : Handler :=
  login_required (App.create cfg Certificados App.certificate_fields req).

Definition admin_update_certificate (id : Z) (req : Request) : Handler :=
  login_required (App.update cfg Certificados "Certificate not found" id req).

Definition admin_delete_certificate (id : Z) : Handler :=
  login_required
    (App.delete Certificados "Certificate deleted successfully" id).

End Handlers.
End Admin.

(* ------------------------------------------------------------------ *)
(** ** Vocabulary of the properties *)

(** *** Proof steps *)

(** Case analysis on the innermost scrutinee of the goal. *)
Ltac break_match :=
  match goal with
  | |- context [match ?x with _ => _ end] =>
      lazymatch x with
      | context [match _ with _ => _ end] => fail
      | _ => destruct x eqn:?
      end
  end.

Ltac unfold_views :=
  unfold App.get_projects, App.list_all, App.get_project,
    App.get_certificate, App.get_one, App.get_certificates,
    App.create_project, App.create_certificate, App.create,
    App.update_project, App.update_certificate, App.update,
    App.delete_project, App.delete_certificate, App.delete,
    App.get_visits, App.increment_visits, App.index,
    App.invalid_password, App.admin_dashboard, App.admin_logout,
    App.health_check, App.not_found, App.method_not_allowed,
    App.get_json, App.on_error, now_isoformat,
    try_except, bind, execute, ret, lift.

(** *** The storage service answers *)

(** The next [n] calls of [.execute()] do not raise. *)
Definition answers (n : nat) (w : World) : Prop :=
  Forall (fun f => f = None) (firstn n (faults w)).

(** The world after a query the service answered. *)
Definition after (q : query) (w : World) : World :=
  mkWorld (snd (run_query q (store w))) (issued w ++ [q])
          (tl (faults w)) (session w) (utcnow w).

(** *** The access guard *)

Section GuardVocabulary.

Variable cfg : Config.

(** The header carries the secret as the guard wants it. *)
Definition authorized (req : Request) : bool :=
  match authorization req with
  | Some h =>
      match split h with
      | [p0; p1] =>
          String.eqb p0 "Bearer" && String.eqb p1 (ADMIN_PASSWORD cfg)
      | _ => false
      end
  | None => false
  end.

Definition header_missing (req : Request) : Prop :=
  authorization req = None.

Definition header_malformed (req : Request) : Prop :=
  exists h, authorization req = Some h /\
            forall tok, split h <> ["Bearer"; tok].

Definition secret_mismatch (req : Request) : Prop :=
  exists h p0 tok, authorization req = Some h /\ split h = [p0; tok] /\
                   tok <> ADMIN_PASSWORD cfg.

Definition rejected (req : Request) : Prop :=
  header_missing req \/ header_malformed req \/ secret_mismatch req.

End GuardVocabulary.

(** *** Concrete configurations, worlds and requests *)

Definition cfg_no_templates : Config :=
  mkConfig "admin123" (fun _ => false)
           (fun name _ => Raise name) false.

Definition cfg_templates : Config :=
  mkConfig "admin123" (fun _ => true)
           (fun name _ => Ok name) false.

Definition empty_world : World :=
  mkWorld (mkStore [] [] [] 1) [] [] [] "2025-01-15T10:00:00".

Definition visit_row (id total : Z) : row :=
  [("id", JNum id); ("total", JNum total)].

Definition counting_world (total : Z) : World :=
  mkWorld (mkStore [] [] [visit_row 1 total] 2) [] [] []
          "2025-01-15T10:00:00".

Definition request (m : Method) (p : list string)
    (auth : option string) (b : Payload) : Request :=
  mkRequest m p auth b None None.

Definition bearer_admin : option string := Some "Bearer admin123".

(** *** Routes *)

(** The routes decorated with [@require_auth]. *)
Definition guarded (e : App.endpoint) (m : Method) : bool :=
  match e, m with
  | App.EProjetos, POST => true
  | App.EProjeto _, PUT => true
  | App.EProjeto _, DELETE => true
  | App.ECertificados, POST => true
  | App.ECertificado _, PUT => true
  | App.ECertificado _, DELETE => true
  | _, _ => false
  end.

(** The routes whose view sends an insert, an update or a delete. *)
Definition mutating (e : App.endpoint) (m : Method) : bool :=
  match e, m with
  | App.EVisitas, POST => true
  | _, _ => guarded e m
  end.

(** The required field names of the two create routes. *)
Definition create_fields (e : App.endpoint) : option (list string) :=
  match e with
  | App.EProjetos => Some App.project_fields
  | App.ECertificados => Some App.certificate_fields
  | _ => None
  end.

(** The update the view sends for the row it read. *)
Definition write_back (new_total : Z) (id : json) : query :=
  UpdateEq Visitas [("total", JNum new_total)] "id" id.

Definition first_insert : query := Insert Visitas [("total", JNum 1)].

(** The total as GET /api/visitas reads it: that of the first record,
    zero when there is none. *)
Definition visit_total (s : Store) : option Z :=
  match visitas s with
  | [] => Some 0
  | r :: _ =>
      match dict_get "total" r with
      | Some (JNum n) => Some n
      | _ => None
      end
  end.

Definition certificate (id : Z) (nome origem : string) : row :=
  [("id", JNum id); ("nome", JStr nome); ("instituicao", JStr origem);
   ("data_conclusao", JStr "2025-01-15"); ("origem", JStr origem)].

Definition certificates_world : World :=
  mkWorld (mkStore []
             [certificate 1 "Python" "FIAP"; certificate 2 "SQL" "Alura";
              certificate 3 "Flask" "FIAP"] [] 4)
          [] [] [] "2025-01-15T10:00:00".

(** No row of the table has this id. *)
Definition absent (t : table) (id : Z) (w : World) : Prop :=
  forall r, In r (rows_of t (store w)) -> col_eq "id" (JNum id) r = false.

(** The table and the id of the routes that name one record. *)
Definition resource (e : App.endpoint) : option (table * Z) :=
  match e with
  | App.EProjeto id => Some (Projetos, id)
  | App.ECertificado id => Some (Certificados, id)
  | _ => None
  end.

Definition login_request (password : string) : Request :=
  mkRequest POST [] None PayloadAbsent (Some password) None.

(** A response is either a JSON error envelope or carries one of the
    statuses of the successful paths. *)
Definition enveloped (r : Response) : Prop :=
  (exists msg code, r = json_error msg code)
  \/ status r = 200 \/ status r = 201 \/ status r = 302 \/ status r = 405.

Definition keeps_envelope (f : Handler) : Prop :=
  forall w, enveloped (fst (f w)).

Ltac envelope :=
  first
    [ left; eexists; eexists; reflexivity
    | right; left; reflexivity
    | right; right; left; reflexivity
    | right; right; right; left; reflexivity
    | right; right; right; right; reflexivity ].

Ltac crunch_view :=
  intros; unfold keeps_envelope; intros; unfold_views;
  repeat (break_match; simpl in * );
  repeat match goal with
    | H : (_, _) = (_, _) |- _ => inversion H; subst; clear H
    end;
  simpl; try discriminate; envelope.

(** *** Serving requests in sequence *)

(** The application answers one request after the other; the world one
    request leaves is the world the next one finds. *)
Fixpoint serve (cfg : Config) (reqs : list Request) (w : World)
  : list Response * World :=
  match reqs with
  | [] => ([], w)
  | r :: rs =>
      let (resp, w1) := App.dispatch cfg r w in
      let (resps, w2) := serve cfg rs w1 in
      (resp :: resps, w2)
  end.

Definition is_visit_post (req : Request) : Prop :=
  App.url_map (path req) = Some App.EVisitas /\ method req = POST.

(** *** Strings *)

(** Some character of the string is whitespace for [split()]. *)
Fixpoint has_space (s : string) : bool :=
  match s with
  | EmptyString => false
  | String c s' => isspace c || has_space s'
  end.


(** *** Routes, continued *)

(** The table of the two routes that create a record. *)
Definition collection (e : App.endpoint) : option table :=
  match e with
  | App.EProjetos => Some Projetos
  | App.ECertificados => Some Certificados
  | _ => None
  end.

(** The view of the request gets as far as its first [.execute()]:
    the guard lets the request through, and the body passes what the
    view does with it before the query is built. *)
Definition reaches_backend (cfg : Config) (req : Request) : bool :=
  match App.url_map (path req) with
  | None => false
  | Some e =>
      match e, method req with
      | App.EProjetos, GET | App.ECertificados, GET
      | App.EProjeto _, GET | App.ECertificado _, GET
      | App.EVisitas, GET | App.EVisitas, POST => true
      | App.EProjeto _, DELETE | App.ECertificado _, DELETE =>
          authorized cfg req
      | App.EProjeto _, PUT | App.ECertificado _, PUT =>
          authorized cfg req &&
          match payload req with
          | PayloadJson (JObj _) => true
          | _ => false
          end
      | App.EProjetos, POST =>
          authorized cfg req &&
          match payload req with
          | PayloadJson (JObj d) =>
              forallb (fun f => dict_has f d) App.project_fields
          | _ => false
          end
      | App.ECertificados, POST =>
          authorized cfg req &&
          match payload req with
          | PayloadJson (JObj d) =>
              forallb (fun f => dict_has f d) App.certificate_fields
          | _ => false
          end
      | _, _ => false
      end
  end.

(** The record an accepted create request stores. *)
Definition created_row (w : World) (d : row) : row :=
  with_id (next_id (store w)) (dict_set "created_at" (JStr (utcnow w)) d).

(** The fields an update request writes. *)
Definition update_patch (w : World) (d : row) : row :=
  dict_set "updated_at" (JStr (utcnow w)) d.

(** The routes whose view writes the session. *)
Definition session_route (e : App.endpoint) : bool :=
  match e with
  | App.EIndex | App.EAdminLogout => true
  | _ => false
  end.

(** A stored total the counter can add one to. *)
Definition countable (v : json) : bool :=
  match v with
  | JNum _ | JBool _ => true
  | _ => false
  end.

Definition project_payload : row :=
  [("titulo", JStr "Portfolio"); ("descricao", JStr "Site");
   ("tecnologias", JStr "Python, Flask")].

Definition projects_world : World :=
  mkWorld (mkStore [("id", JNum 1) :: project_payload] [] [] 2)
          [] [] [] "2025-01-15T10:00:00".

Definition failing_world (msg : string) : World :=
  mkWorld (mkStore [] [] [visit_row 1 7] 2) [] [Some msg] []
          "2025-01-15T10:00:00".

Ltac first_call_raises H :=
  unfold_views; unfold execute; rewrite H; simpl;
  repeat (break_match; simpl in * );
  repeat match goal with
    | E : (_, _) = (_, _) |- _ => inversion E; subst; clear E
    end;
  try discriminate; repeat split; reflexivity.

Ltac settle_views :=
  unfold_views;
  repeat (break_match; simpl in * );
  repeat match goal with
    | E : (_, _) = (_, _) |- _ => inversion E; subst; clear E
    end;
  simpl; try discriminate.

(** The queries a view added to the log, and how many. *)
Ltac log_grows :=
  first
    [ exists []; split; [now rewrite app_nil_r | simpl; lia]
    | eexists [_]; split; [reflexivity | simpl; lia]
    | eexists [_; _]; split; [now rewrite <- app_assoc | simpl; lia] ].

(* ================================================================== *)
(** * Properties *)

(** ** Dictionaries and JSON equality *)

Lemma json_eqb_refl : forall a : json, json_eqb a a = true.
Proof.
  fix IH 1. intros [| b | n | s | l | kvs]; simpl.
  - reflexivity.
  - apply Bool.eqb_reflx.
  - apply Z.eqb_refl.
  - apply String.eqb_refl.
  - induction l as [| x l IHl]; [reflexivity |].
    rewrite (IH x). exact IHl.
  - induction kvs as [| [k x] kvs IHk]; [reflexivity |].
    rewrite String.eqb_refl, (IH x). exact IHk.
Qed.

Lemma json_eqb_str : forall (x : json) (s : string),
  json_eqb x (JStr s) = true -> x = JStr s.
Proof.
  intros [| b | n | t | l | kvs] s H; simpl in H; try discriminate.
  apply String.eqb_eq in H. now subst.
Qed.

Lemma dict_get_set_same : forall k v d, dict_get k (dict_set k v d) = Some v.
Proof.
  intros k v d. induction d as [| [k' v'] d IH]; simpl.
  - now rewrite String.eqb_refl.
  - destruct (String.eqb k k') eqn:E; simpl.
    + now rewrite String.eqb_refl.
    + now rewrite E.
Qed.

Lemma dict_get_set_other : forall k k' v d,
  String.eqb k' k = false ->
  dict_get k' (dict_set k v d) = dict_get k' d.
Proof.
  intros k k' v d Hne. induction d as [| [k0 v0] d IH]; simpl.
  - now rewrite Hne.
  - destruct (String.eqb k k0) eqn:E; simpl.
    + apply String.eqb_eq in E. subst k0. now rewrite Hne.
    + destruct (String.eqb k' k0); [reflexivity | exact IH].
Qed.

Lemma filter_none : forall (A : Type) (p : A -> bool) (l : list A),
  (forall x, In x l -> p x = false) -> filter p l = [].
Proof.
  intros A p l. induction l as [| a l IH]; intros H; simpl.
  - reflexivity.
  - rewrite (H a (or_introl eq_refl)). apply IH.
    intros x Hx. apply H. now right.
Qed.

(** ** The storage service answers *)

Lemma execute_answers : forall q n w,
  answers (S n) w ->
  execute q w = (Ok (fst (run_query q (store w))), after q w).
Proof.
  intros q n w H. unfold execute, after, answers in *.
  destruct (faults w) as [| [msg |] fs]; simpl in *.
  - now destruct (run_query q (store w)).
  - inversion H; discriminate.
  - now destruct (run_query q (store w)).
Qed.

Lemma answers_after : forall q n w,
  answers (S n) w -> answers n (after q w).
Proof.
  intros q n w H. unfold answers, after in *. simpl.
  destruct (faults w) as [| f fs]; simpl in *.
  - destruct n; constructor.
  - now inversion H.
Qed.

Lemma answers_le : forall n w, answers (S n) w -> answers n w.
Proof.
  intros n w. unfold answers. generalize (faults w) as fs.
  induction n as [| n IH]; intros fs H; simpl.
  - constructor.
  - destruct fs as [| f fs]; [constructor |].
    simpl in H. inversion H as [| ? ? Hf Hrest].
    constructor; [exact Hf | apply IH; exact Hrest].
Qed.

(** A query that raises changes neither the store nor the session. *)
Lemma execute_raise : forall q w msg w',
  execute q w = (Raise msg, w') ->
  store w' = store w /\ session w' = session w.
Proof.
  intros q w msg w' H. unfold execute in H.
  destruct (faults w) as [| [m |] fs];
    try destruct (run_query q (store w)); inversion H; subst; simpl; auto.
Qed.

(** ** The access guard *)

Section Guard.

Variable cfg : Config.

Lemma authorized_split : forall req,
  authorized cfg req = true <->
  exists h, authorization req = Some h /\
            split h = ["Bearer"; ADMIN_PASSWORD cfg].
Proof.
  intros req. unfold authorized. split.
  - destruct (authorization req) as [h |]; [| discriminate].
    destruct (split h) as [| p0 [| p1 [| p2 l]]] eqn:Es; try discriminate.
    intros H. apply andb_true_iff in H. destruct H as [H0 H1].
    apply String.eqb_eq in H0, H1. subst p0 p1. now exists h.
  - intros [h [-> ->]]. now rewrite !String.eqb_refl.
Qed.

Lemma rejected_iff : forall req, rejected cfg req <-> authorized cfg req = false.
Proof.
  intros req. split.
  - intros H. destruct (authorized cfg req) eqn:E; [| reflexivity].
    exfalso. apply authorized_split in E. destruct E as [h [Ha Hs]].
    destruct H as [H | [H | H]].
    + unfold header_missing in H. congruence.
    + destruct H as [h' [Ha' Hm]]. rewrite Ha in Ha'.
      inversion Ha'; subst h'. exact (Hm _ Hs).
    + destruct H as [h' [p0 [tok [Ha' [Hs' Hne]]]]]. rewrite Ha in Ha'.
      inversion Ha'; subst h'. rewrite Hs in Hs'.
      inversion Hs'; subst. now apply Hne.
  - unfold authorized, rejected, header_missing, header_malformed,
      secret_mismatch.
    destruct (authorization req) as [h |]; [| now left].
    intros H. right.
    destruct (split h) as [| p0 [| p1 [| p2 l]]] eqn:Es;
      try (left; exists h; split;
           [reflexivity | intros tok Ht; rewrite Es in Ht; discriminate]).
    destruct (String.eqb p0 "Bearer") eqn:E0; simpl in H.
    + right. exists h, p0, p1. repeat split; try assumption.
      intros Heq. rewrite Heq, String.eqb_refl in H. discriminate.
    + left. exists h. split; [reflexivity |].
      intros tok Ht. rewrite Es in Ht. inversion Ht; subst. discriminate.
Qed.

Lemma require_auth_cases : forall f req w,
  App.require_auth cfg f req w =
  if authorized cfg req then f w
  else (json_error
          (match authorization req with
           | None => "Missing Authorization header"
           | Some h =>
               if String.eqb h "" then "Missing Authorization header"
               else match split h with
                    | [p0; _] =>
                        if String.eqb p0 "Bearer" then "Unauthorized"
                        else "Invalid Authorization header"
                    | _ => "Invalid Authorization header"
                    end
           end) 401, w).
Proof.
  intros f req w. unfold App.require_auth, authorized.
  destruct (authorization req) as [h |]; [| reflexivity].
  destruct (String.eqb h "") eqn:Eh.
  - apply String.eqb_eq in Eh. subst h. reflexivity.
  - destruct (split h) as [| p0 [| p1 [| p2 l]]]; try reflexivity.
    destruct (String.eqb p0 "Bearer"); simpl; [| reflexivity].
    destruct (String.eqb p1 (ADMIN_PASSWORD cfg)); reflexivity.
Qed.

(** C1: a guarded endpoint answers 401, with a JSON error body and
    without running the view, exactly when the Authorization header is
    absent, or does not split into two tokens of which the first is
    "Bearer", or carries a second token other than the admin secret; in
    every other case the wrapped view runs and its answer is returned.
    The tokens are those of Python's [split()], cut at runs of
    whitespace.  The views of app.py answer no 401 of their own, which
    is what the hypothesis on [f] says. *)
Theorem require_auth_rejects_exactly :
  forall (f : Handler) (req : Request) (w : World),
    status (fst (f w)) <> 401 ->
    (status (fst (App.require_auth cfg f req w)) = 401 <-> rejected cfg req)
    /\ (rejected cfg req ->
        exists msg, App.require_auth cfg f req w = (json_error msg 401, w))
    /\ (~ rejected cfg req -> App.require_auth cfg f req w = f w).
Proof.
  intros f req w Hf. rewrite require_auth_cases.
  destruct (authorized cfg req) eqn:E.
  - assert (Hn : ~ rejected cfg req).
    { intros H. apply rejected_iff in H. congruence. }
    repeat split.
    + intros H. contradiction.
    + intros H. contradiction.
    + intros H. contradiction.
  - assert (Hr : rejected cfg req) by now apply rejected_iff.
    repeat split.
    + intros _. exact Hr.
    + intros _. eexists. reflexivity.
    + intros H. contradiction.
Qed.

End Guard.

Lemma require_auth_rejects_exactly_witness :
  status (fst (App.health_check empty_world)) <> 401 /\
  ((status (fst (App.require_auth cfg_no_templates App.health_check
                   (request GET ["health"] (Some "Bearer wrong") PayloadAbsent)
                   empty_world)) = 401 <->
    rejected cfg_no_templates
      (request GET ["health"] (Some "Bearer wrong") PayloadAbsent))
   /\ (rejected cfg_no_templates
         (request GET ["health"] (Some "Bearer wrong") PayloadAbsent) ->
       exists msg,
         App.require_auth cfg_no_templates App.health_check
           (request GET ["health"] (Some "Bearer wrong") PayloadAbsent)
           empty_world = (json_error msg 401, empty_world))
   /\ (~ rejected cfg_no_templates
           (request GET ["health"] (Some "Bearer wrong") PayloadAbsent) ->
       App.require_auth cfg_no_templates App.health_check
         (request GET ["health"] (Some "Bearer wrong") PayloadAbsent)
         empty_world = App.health_check empty_world)).
Proof.
  split.
  - simpl. discriminate.
  - apply (require_auth_rejects_exactly cfg_no_templates App.health_check).
    simpl. discriminate.
Defined.

(** ** Which endpoints are guarded, which write *)

(** The views behind the guard answer no 401 of their own. *)
Lemma guarded_view_not_401 : forall cfg req e w,
  App.url_map (path req) = Some e ->
  guarded e (method req) = true ->
  exists f,
    App.dispatch cfg req = App.require_auth cfg f req
    /\ status (fst (f w)) <> 401.
Proof.
  intros cfg req e w He Hg. unfold App.dispatch. rewrite He.
  destruct e, (method req); try discriminate;
    (eexists; split; [reflexivity |]);
    unfold_views; repeat (break_match; simpl in * );
    repeat match goal with
      | H : (_, _) = (_, _) |- _ => inversion H; subst; clear H
      end; simpl; discriminate.
Qed.

(** On the guarded routes of app.py the answer is 401 exactly for the
    requests the guard rejects. *)
Lemma guarded_route_401_iff : forall cfg req e w,
  App.url_map (path req) = Some e ->
  guarded e (method req) = true ->
  (status (fst (App.dispatch cfg req w)) = 401 <-> rejected cfg req).
Proof.
  intros cfg req e w He Hg.
  destruct (guarded_view_not_401 cfg req e w He Hg) as [f [Hd Hf]].
  rewrite Hd, require_auth_cases, rejected_iff.
  destruct (authorized cfg req); simpl; split; intros H;
    try reflexivity; try discriminate; contradiction.
Qed.

Lemma dispatch_guarded : forall cfg req e,
  App.url_map (path req) = Some e ->
  guarded e (method req) = true ->
  exists f, App.dispatch cfg req = App.require_auth cfg f req.
Proof.
  intros cfg req e He Hg. unfold App.dispatch. rewrite He.
  destruct e, (method req); try discriminate; eexists; reflexivity.
Qed.

(** The views of the other routes leave the rows as they are. *)
Lemma read_only_keeps_store : forall cfg req e w,
  App.url_map (path req) = Some e ->
  mutating e (method req) = false ->
  store (snd (App.dispatch cfg req w)) = store w.
Proof.
  intros cfg req e w He Hm. unfold App.dispatch. rewrite He.
  destruct e, (method req); try discriminate; try reflexivity;
    unfold_views; repeat (break_match; simpl in * );
    repeat match goal with
      | H : (_, _) = (_, _) |- _ => inversion H; subst; clear H
      end; reflexivity.
Qed.

(** C2 (as stated) fails: POST /api/visitas writes to the store and is
    not behind the guard; without a header it is answered 201 on an
    empty table. *)
Lemma visits_post_without_header_not_401 :
  ~ (forall cfg req w e,
       App.url_map (path req) = Some e ->
       mutating e (method req) = true ->
       authorization req = None ->
       status (fst (App.dispatch cfg req w)) = 401).
Proof.
  intros H.
  specialize (H cfg_no_templates
                (request POST ["api"; "visitas"] None PayloadAbsent)
                empty_world App.EVisitas eq_refl eq_refl eq_refl).
  vm_compute in H. discriminate.
Qed.

(** C2 (amended): a request without Authorization header to a route
    behind [require_auth] -- POST, PUT and DELETE of projects and of
    certificates -- is answered 401 and nothing is sent to the
    store. *)
Theorem guarded_without_header_401 :
  forall cfg req w e,
    App.url_map (path req) = Some e ->
    guarded e (method req) = true ->
    authorization req = None ->
    App.dispatch cfg req w =
      (json_error "Missing Authorization header" 401, w).
Proof.
  intros cfg req w e He Hg Ha.
  destruct (dispatch_guarded cfg req e He Hg) as [f Hf].
  rewrite Hf. unfold App.require_auth. now rewrite Ha.
Qed.

Lemma guarded_without_header_401_witness :
  App.dispatch cfg_no_templates
    (request DELETE ["api"; "projetos"; "7"] None PayloadAbsent)
    (counting_world 3) =
  (json_error "Missing Authorization header" 401, counting_world 3).
Proof.
  apply (guarded_without_header_401 cfg_no_templates _ _ (App.EProjeto 7));
    reflexivity.
Defined.

(** ** Creating a record *)

Lemma dispatch_create : forall cfg req e fields,
  App.url_map (path req) = Some e ->
  method req = POST ->
  create_fields e = Some fields ->
  exists t,
    App.dispatch cfg req = App.require_auth cfg (App.create cfg t fields req) req.
Proof.
  intros cfg req e fields He Hm Hf. unfold App.dispatch.
  rewrite He, Hm.
  destruct e; try discriminate; inversion Hf; subst;
    eexists; reflexivity.
Qed.

Lemma dispatch_create_authorized : forall cfg req e fields w,
  App.url_map (path req) = Some e ->
  method req = POST ->
  create_fields e = Some fields ->
  authorized cfg req = true ->
  exists t, App.dispatch cfg req w = App.create cfg t fields req w.
Proof.
  intros cfg req e fields w He Hm Hf Ha.
  destruct (dispatch_create cfg req e fields He Hm Hf) as [t Ht].
  exists t. rewrite Ht, require_auth_cases, Ha. reflexivity.
Qed.

Lemma all_in_dict_missing : forall fields d f,
  In f fields -> dict_has f d = false -> all_in fields (JObj d) = Ok false.
Proof.
  intros fields d f. induction fields as [| g fs IH]; intros Hin Hf.
  - contradiction.
  - simpl. destruct (dict_has g d) eqn:Eg.
    + destruct Hin as [-> | Hin]; [congruence | now apply IH].
    + reflexivity.
Qed.

Lemma all_in_array : forall fields l,
  all_in fields (JArr l) =
  Ok (forallb (fun f => existsb (json_eqb (JStr f)) l) fields).
Proof.
  intros fields l. induction fields as [| g fs IH]; simpl.
  - reflexivity.
  - destruct (existsb _ l); [exact IH | reflexivity].
Qed.

Lemma all_in_string : forall fields s,
  all_in fields (JStr s) = Ok (forallb (fun f => str_contains f s) fields).
Proof.
  intros fields s. induction fields as [| g fs IH]; simpl.
  - reflexivity.
  - destruct (str_contains g s); [exact IH | reflexivity].
Qed.

(** Where [in] raises, so does the whole check, or the item assignment
    that follows it when no field is required. *)
Lemma create_check_raises : forall cfg t fields req w j,
  payload req = PayloadJson j ->
  (j = JNull \/ (exists b, j = JBool b) \/ (exists n, j = JNum n)) ->
  exists msg, App.create cfg t fields req w = (json_error msg 500, w).
Proof.
  intros cfg t fields req w j Hp Hj. unfold_views. rewrite Hp.
  destruct Hj as [-> | [[b ->] | [n ->]]];
    destruct fields; simpl; eexists; reflexivity.
Qed.

(** C3: an authenticated POST /api/projetos or POST /api/certificados
    whose JSON object lacks one of the required field names as a key is
    answered 400, and the world is left as it was: no query is issued
    and no row is stored. *)
Theorem create_missing_field_400 :
  forall cfg req w e fields d f,
    App.url_map (path req) = Some e ->
    method req = POST ->
    create_fields e = Some fields ->
    authorized cfg req = true ->
    payload req = PayloadJson (JObj d) ->
    In f fields ->
    dict_has f d = false ->
    App.dispatch cfg req w = (json_error "Missing required fields" 400, w).
Proof.
  intros cfg req w e fields d f He Hm Hf Ha Hp Hin Hmiss.
  destruct (dispatch_create_authorized cfg req e fields w He Hm Hf Ha)
    as [t Ht].
  rewrite Ht. unfold_views. rewrite Hp.
  rewrite (all_in_dict_missing fields d f Hin Hmiss). reflexivity.
Qed.

Lemma create_missing_field_400_witness :
  App.dispatch cfg_no_templates
    (request POST ["api"; "projetos"] bearer_admin
       (PayloadJson (JObj [("titulo", JStr "Test Project")])))
    (counting_world 3) =
  (json_error "Missing required fields" 400, counting_world 3).
Proof.
  apply (create_missing_field_400 cfg_no_templates _ _ App.EProjetos
           App.project_fields [("titulo", JStr "Test Project")]
           "descricao");
    try reflexivity.
  simpl. right. left. reflexivity.
Defined.

(** C10 (as stated) fails: an empty JSON array is not an object, the
    membership check does not raise on it but finds no field, and the
    answer is the 400 of the validation. *)
Lemma create_array_body_not_500 :
  ~ (forall cfg req w e fields,
       App.url_map (path req) = Some e ->
       method req = POST ->
       create_fields e = Some fields ->
       authorized cfg req = true ->
       (forall d, payload req <> PayloadJson (JObj d)) ->
       status (fst (App.dispatch cfg req w)) = 500).
Proof.
  intros H.
  assert (Hn : forall d, PayloadJson (JArr []) <> PayloadJson (JObj d))
    by (intros d; discriminate).
  specialize (H cfg_no_templates
                (request POST ["api"; "projetos"] bearer_admin
                   (PayloadJson (JArr [])))
                empty_world App.EProjetos App.project_fields
                eq_refl eq_refl eq_refl eq_refl Hn).
  vm_compute in H. discriminate.
Qed.

(** C10 (amended): an authenticated create request is answered 500,
    with the world left as it was, when its body is absent or is JSON
    null, a boolean or a number, the bodies on which the membership
    check raises.  An array or a string body passes through the check
    without an exception: it is answered 400 when it lacks one of the
    required names (as an element, as a substring), and 500 when it
    holds them all, from the item assignment that follows. *)
Theorem create_non_object_body :
  forall cfg req w e fields,
    App.url_map (path req) = Some e ->
    method req = POST ->
    create_fields e = Some fields ->
    authorized cfg req = true ->
    ((payload req = PayloadAbsent \/
      payload req = PayloadJson JNull \/
      (exists b, payload req = PayloadJson (JBool b)) \/
      (exists n, payload req = PayloadJson (JNum n))) ->
     exists msg, App.dispatch cfg req w = (json_error msg 500, w))
    /\ (forall l, payload req = PayloadJson (JArr l) ->
        exists msg,
          App.dispatch cfg req w =
          (json_error msg
             (if forallb (fun f => existsb (json_eqb (JStr f)) l) fields
              then 500 else 400), w))
    /\ (forall s, payload req = PayloadJson (JStr s) ->
        exists msg,
          App.dispatch cfg req w =
          (json_error msg
             (if forallb (fun f => str_contains f s) fields
              then 500 else 400), w)).
Proof.
  intros cfg req w e fields He Hm Hf Ha.
  destruct (dispatch_create_authorized cfg req e fields w He Hm Hf Ha)
    as [t Ht].
  rewrite Ht. repeat split.
  - intros [Hp | [Hp | [[b Hp] | [n Hp]]]].
    + unfold_views. rewrite Hp.
      destruct (get_json_returns_none cfg); simpl.
      * destruct fields; simpl; eexists; reflexivity.
      * eexists; reflexivity.
    + apply (create_check_raises cfg t fields req w JNull Hp). now left.
    + apply (create_check_raises cfg t fields req w (JBool b) Hp).
      right; left. now exists b.
    + apply (create_check_raises cfg t fields req w (JNum n) Hp).
      right; right. now exists n.
  - intros l Hp. unfold_views. rewrite Hp, all_in_array.
    destruct (forallb _ fields); simpl; eexists; reflexivity.
  - intros s Hp. unfold_views. rewrite Hp, all_in_string.
    destruct (forallb _ fields); simpl; eexists; reflexivity.
Qed.

Lemma create_non_object_body_witness :
  exists msg,
    App.dispatch cfg_no_templates
      (request POST ["api"; "certificados"] bearer_admin PayloadAbsent)
      (counting_world 3) =
    (json_error msg 500, counting_world 3).
Proof.
  apply (create_non_object_body cfg_no_templates _ _ App.ECertificados
           App.certificate_fields);
    try reflexivity.
  left. reflexivity.
Defined.

(** ** The visit counter *)

Lemma select_all_rows : forall rs : list row, map (project_col None) rs = rs.
Proof.
  induction rs as [| r rs IH]; simpl; [reflexivity | now rewrite IH].
Qed.

Lemma col_eq_own : forall col v r, dict_get col r = Some v -> col_eq col v r = true.
Proof.
  intros col v r H. unfold col_eq. rewrite H. apply json_eqb_refl.
Qed.

Lemma increment_existing : forall w r rest N id,
  answers 2 w ->
  visitas (store w) = r :: rest ->
  dict_get "total" r = Some (JNum N) ->
  dict_get "id" r = Some id ->
  App.increment_visits w =
    (App.json_total (JNum (N + 1)) 200,
     after (write_back (N + 1) id) (after (Select Visitas None) w)).
Proof.
  intros w r rest N id Ha Hv Ht Hi. unfold App.increment_visits.
  unfold try_except, bind.
  rewrite (execute_answers _ 1 w Ha). simpl.
  rewrite select_all_rows, Hv. unfold lift, py_getitem.
  rewrite Ht. simpl. rewrite Hi.
  rewrite (execute_answers _ 0 _ (answers_after _ 1 w Ha)).
  reflexivity.
Qed.

Lemma increment_empty : forall w,
  answers 2 w ->
  visitas (store w) = [] ->
  App.increment_visits w =
    (App.json_total (JNum 1) 201,
     after first_insert (after (Select Visitas None) w)).
Proof.
  intros w Ha Hv. unfold App.increment_visits.
  unfold try_except, bind.
  rewrite (execute_answers _ 1 w Ha). simpl.
  rewrite select_all_rows, Hv.
  rewrite (execute_answers _ 0 _ (answers_after _ 1 w Ha)).
  reflexivity.
Qed.

Lemma visitas_after_write_back : forall w r rest N id,
  visitas (store w) = r :: rest ->
  dict_get "id" r = Some id ->
  exists rest',
    visitas (store (after (write_back N id) (after (Select Visitas None) w)))
    = dict_set "total" (JNum N) r :: rest'.
Proof.
  intros w r rest N id Hv Hi. simpl. rewrite Hv. simpl.
  rewrite (col_eq_own "id" id r Hi). eexists. reflexivity.
Qed.

Lemma visitas_after_first_insert : forall w,
  visitas (store w) = [] ->
  visitas (store (after first_insert (after (Select Visitas None) w)))
  = [visit_row (next_id (store w)) 1].
Proof.
  intros w Hv. simpl. rewrite Hv. reflexivity.
Qed.

Lemma dispatch_visits_post : forall cfg req,
  App.url_map (path req) = Some App.EVisitas ->
  method req = POST ->
  App.dispatch cfg req = App.increment_visits.
Proof.
  intros cfg req He Hm. unfold App.dispatch. now rewrite He, Hm.
Qed.

(** C4: POST /api/visitas, the storage service answering.  When the
    table has a record whose total is N, the view sends the update of
    that record (selected by its id) to N+1, the record holds N+1
    afterwards, and the answer is 200 with {total: N+1}.  When the
    table is empty the view inserts a record with total 1 and the
    answer is 201 with {total: 1}. *)
Theorem increment_visits_spec :
  forall cfg req w,
    App.url_map (path req) = Some App.EVisitas ->
    method req = POST ->
    answers 2 w ->
    (forall r rest N id,
       visitas (store w) = r :: rest ->
       dict_get "total" r = Some (JNum N) ->
       dict_get "id" r = Some id ->
       fst (App.dispatch cfg req w) = App.json_total (JNum (N + 1)) 200
       /\ issued (snd (App.dispatch cfg req w)) =
          issued w ++ [Select Visitas None; write_back (N + 1) id]
       /\ exists rest',
            visitas (store (snd (App.dispatch cfg req w))) =
            dict_set "total" (JNum (N + 1)) r :: rest')
    /\ (visitas (store w) = [] ->
        fst (App.dispatch cfg req w) = App.json_total (JNum 1) 201
        /\ issued (snd (App.dispatch cfg req w)) =
           issued w ++ [Select Visitas None; first_insert]
        /\ visitas (store (snd (App.dispatch cfg req w))) =
           [visit_row (next_id (store w)) 1]).
Proof.
  intros cfg req w He Hm Ha.
  rewrite (dispatch_visits_post cfg req He Hm). split.
  - intros r rest N id Hv Ht Hi.
    rewrite (increment_existing w r rest N id Ha Hv Ht Hi).
    split; [reflexivity |]. split.
    + simpl. now rewrite <- app_assoc.
    + apply (visitas_after_write_back w r rest (N + 1) id Hv Hi).
  - intros Hv. rewrite (increment_empty w Ha Hv).
    split; [reflexivity |]. split.
    + simpl. now rewrite <- app_assoc.
    + apply (visitas_after_first_insert w Hv).
Qed.

Lemma increment_visits_spec_witness :
  fst (App.dispatch cfg_no_templates
         (request POST ["api"; "visitas"] None PayloadAbsent)
         (counting_world 41)) = App.json_total (JNum (41 + 1)) 200
  /\ fst (App.dispatch cfg_no_templates
            (request POST ["api"; "visitas"] None PayloadAbsent)
            empty_world) = App.json_total (JNum 1) 201.
Proof.
  split.
  - apply (proj1 (increment_visits_spec cfg_no_templates
                    (request POST ["api"; "visitas"] None PayloadAbsent)
                    (counting_world 41) eq_refl eq_refl (Forall_nil _))
             (visit_row 1 41) [] 41 (JNum 1));
      reflexivity.
  - apply (proj2 (increment_visits_spec cfg_no_templates
                    (request POST ["api"; "visitas"] None PayloadAbsent)
                    empty_world eq_refl eq_refl (Forall_nil _)));
      reflexivity.
Defined.

Lemma get_visits_reads_total : forall w N,
  answers 1 w ->
  visit_total (store w) = Some N ->
  fst (App.get_visits w) = App.json_total (JNum N) 200.
Proof.
  intros w N Ha Ht. unfold App.get_visits, try_except, bind.
  rewrite (execute_answers _ 0 w Ha). simpl.
  unfold visit_total in Ht.
  destruct (visitas (store w)) as [| r rest]; simpl.
  - inversion Ht. reflexivity.
  - destruct (dict_get "total" r) as [[| b | n | s | l | kvs] |];
      try discriminate.
    inversion Ht; subst. reflexivity.
Qed.

Lemma visit_total_after_increment : forall w N,
  answers 2 w ->
  (forall r rest, visitas (store w) = r :: rest -> dict_has "id" r = true) ->
  visit_total (store w) = Some N ->
  visit_total (store (snd (App.increment_visits w))) = Some (N + 1)
  /\ (forall r rest,
        visitas (store (snd (App.increment_visits w))) = r :: rest ->
        dict_has "id" r = true).
Proof.
  intros w N Ha Hid Ht. unfold visit_total in Ht.
  destruct (visitas (store w)) as [| r rest] eqn:Hv.
  - inversion Ht; subst N.
    rewrite (increment_empty w Ha Hv). cbn [snd].
    unfold visit_total.
    rewrite (visitas_after_first_insert w Hv). split; [reflexivity |].
    intros r rest Hr. inversion Hr. reflexivity.
  - destruct (dict_get "total" r) as [[| b | n | s | l | kvs] |] eqn:Et;
      try discriminate.
    inversion Ht; subst n.
    specialize (Hid r rest eq_refl). unfold dict_has in Hid.
    destruct (dict_get "id" r) as [id |] eqn:Ei; [| discriminate].
    rewrite (increment_existing w r rest N id Ha Hv Et Ei). cbn [snd].
    destruct (visitas_after_write_back w r rest (N + 1) id Hv Ei)
      as [rest' Hr'].
    unfold visit_total. rewrite Hr'. rewrite dict_get_set_same.
    split; [reflexivity |].
    intros r0 rest0 H0. inversion H0; subst. unfold dict_has.
    rewrite dict_get_set_other by reflexivity. now rewrite Ei.
Qed.

Lemma answers_after_increment : forall w n,
  answers (2 + n) w -> answers n (snd (App.increment_visits w)).
Proof.
  intros w n Ha. unfold App.increment_visits, try_except, bind.
  assert (H1 : answers 1 w).
  { clear - Ha. induction n as [| n IH]; simpl in *.
    - now apply answers_le.
    - apply IH. now apply answers_le. }
  rewrite (execute_answers _ 0 w H1).
  assert (H2 : answers (S n) (after (Select Visitas None) w))
    by now apply answers_after.
  destruct (fst (run_query (Select Visitas None) (store w))) as [| r rest].
  - rewrite (execute_answers _ n _ H2). simpl. now apply answers_after.
  - unfold lift. destruct (py_getitem "total" r); [| now apply answers_le].
    destruct (py_succ a); [| now apply answers_le].
    destruct (py_getitem "id" r); [| now apply answers_le].
    rewrite (execute_answers _ n _ H2). simpl. now apply answers_after.
Qed.

(** C6: two POST /api/visitas one after the other, the storage service
    answering, take the stored total from N to N+2.  The total is the
    one GET /api/visitas reports (zero for an empty table); the record
    read carries the id the service gave it. *)
Theorem two_increments_add_two :
  forall cfg req1 req2 w N,
    App.url_map (path req1) = Some App.EVisitas -> method req1 = POST ->
    App.url_map (path req2) = Some App.EVisitas -> method req2 = POST ->
    answers 4 w ->
    (forall r rest, visitas (store w) = r :: rest -> dict_has "id" r = true) ->
    visit_total (store w) = Some N ->
    visit_total
      (store (snd (App.dispatch cfg req2 (snd (App.dispatch cfg req1 w)))))
    = Some (N + 2).
Proof.
  intros cfg req1 req2 w N He1 Hm1 He2 Hm2 Ha Hid Ht.
  rewrite (dispatch_visits_post cfg req1 He1 Hm1).
  rewrite (dispatch_visits_post cfg req2 He2 Hm2).
  assert (Ha2 : answers 2 w) by (do 2 apply answers_le; exact Ha).
  destruct (visit_total_after_increment w N Ha2 Hid Ht) as [Ht1 Hid1].
  assert (Ha' : answers 2 (snd (App.increment_visits w)))
    by (apply answers_after_increment; exact Ha).
  destruct (visit_total_after_increment _ (N + 1) Ha' Hid1 Ht1) as [Ht2 _].
  rewrite Ht2. f_equal. lia.
Qed.

Lemma two_increments_add_two_witness :
  visit_total
    (store (snd (App.dispatch cfg_no_templates
                   (request POST ["api"; "visitas"] None PayloadAbsent)
                   (snd (App.dispatch cfg_no_templates
                           (request POST ["api"; "visitas"] None PayloadAbsent)
                           (counting_world 5))))))
  = Some (5 + 2).
Proof.
  apply (two_increments_add_two cfg_no_templates); try reflexivity.
  - constructor.
  - intros r rest H. inversion H. reflexivity.
Defined.

(** ** Listing certificates by origin *)

Lemma filter_col_eq_str : forall col v rs,
  Forall (fun r => dict_get col r = Some (JStr v))
         (filter (col_eq col (JStr v)) rs).
Proof.
  intros col v rs. induction rs as [| r rs IH]; simpl.
  - constructor.
  - destruct (col_eq col (JStr v) r) eqn:E; [| exact IH].
    constructor; [| exact IH].
    unfold col_eq in E. destruct (dict_get col r) as [x |]; [| discriminate].
    now rewrite (json_eqb_str x v E).
Qed.

(** C7: GET /api/certificados with a non-empty [origem] parameter V,
    the storage service answering, is answered 200 with the array of the
    stored certificates whose [origem] is V, and of no others: every
    element of the array has [origem] equal to V. *)
Theorem certificates_filtered_by_origem :
  forall cfg req w V,
    App.url_map (path req) = Some App.ECertificados ->
    method req = GET ->
    arg_origem req = Some V ->
    V <> "" ->
    answers 1 w ->
    exists rows,
      fst (App.dispatch cfg req w) = json_rows rows 200
      /\ rows = filter (col_eq "origem" (JStr V)) (certificados (store w))
      /\ Forall (fun r => dict_get "origem" r = Some (JStr V)) rows.
Proof.
  intros cfg req w V He Hm Ho Hne Ha.
  unfold App.dispatch. rewrite He, Hm.
  unfold App.get_certificates, try_except, bind. rewrite Ho.
  assert (Ht : truthy (JStr V) = true).
  { simpl. destruct (String.eqb V "") eqn:E; [| reflexivity].
    apply String.eqb_eq in E. contradiction. }
  rewrite Ht, (execute_answers _ 0 w Ha). simpl.
  eexists. split; [reflexivity |]. split; [reflexivity |].
  apply filter_col_eq_str.
Qed.

Lemma certificates_filtered_by_origem_witness :
  exists rows,
    fst (App.dispatch cfg_no_templates
           (mkRequest GET ["api"; "certificados"] None PayloadAbsent None
                      (Some "FIAP"))
           certificates_world) = json_rows rows 200
    /\ rows = filter (col_eq "origem" (JStr "FIAP"))
                     (certificados (store certificates_world))
    /\ Forall (fun r => dict_get "origem" r = Some (JStr "FIAP")) rows.
Proof.
  apply (certificates_filtered_by_origem cfg_no_templates _ _ "FIAP");
    try reflexivity.
  - discriminate.
  - constructor.
Defined.

(** ** Deleting a record *)

Lemma delete_answered : forall t done id w,
  answers 1 w ->
  App.delete t done id w =
    (json_message done 200, after (DeleteEq t "id" (JNum id)) w).
Proof.
  intros t done id w Ha. unfold App.delete, try_except, bind.
  now rewrite (execute_answers _ 0 w Ha).
Qed.

Lemma delete_status : forall t done id w,
  status (fst (App.delete t done id w)) = 200 \/
  status (fst (App.delete t done id w)) = 500.
Proof.
  intros t done id w. unfold_views.
  repeat (break_match; simpl in * );
    repeat match goal with
      | H : (_, _) = (_, _) |- _ => inversion H; subst; clear H
      end; simpl; auto.
Qed.

Lemma get_one_absent : forall t missing id w,
  answers 1 w -> absent t id w ->
  fst (App.get_one t missing id w) = json_error missing 404.
Proof.
  intros t missing id w Ha Hab. unfold App.get_one, try_except, bind.
  rewrite (execute_answers _ 0 w Ha). simpl.
  now rewrite (filter_none _ _ _ Hab).
Qed.

Lemma update_absent : forall cfg t missing id req d w,
  answers 1 w -> absent t id w ->
  payload req = PayloadJson (JObj d) ->
  fst (App.update cfg t missing id req w) = json_error missing 404.
Proof.
  intros cfg t missing id req d w Ha Hab Hp.
  unfold App.update, App.get_json, try_except, bind. rewrite Hp. simpl.
  rewrite (execute_answers _ 0 w Ha). simpl.
  now rewrite (filter_none _ _ _ Hab).
Qed.

(** C9: an authenticated DELETE /api/projetos/{id} or
    /api/certificados/{id} is never answered 404; when the storage
    service answers, the reply is 200 with a confirmation message,
    whether a record with that id exists or not.  On the same path and
    with no record of that id, GET and an authenticated PUT (with a JSON
    object as body) are answered 404. *)
Theorem delete_never_404 :
  forall cfg req w e t id,
    App.url_map (path req) = Some e ->
    resource e = Some (t, id) ->
    method req = DELETE ->
    authorized cfg req = true ->
    status (fst (App.dispatch cfg req w)) <> 404
    /\ (answers 1 w ->
        exists msg, fst (App.dispatch cfg req w) = json_message msg 200)
    /\ (answers 1 w -> absent t id w ->
        forall req',
          path req' = path req ->
          (method req' = GET \/
           (method req' = PUT /\ authorized cfg req' = true /\
            exists d, payload req' = PayloadJson (JObj d))) ->
          status (fst (App.dispatch cfg req' w)) = 404).
Proof.
  intros cfg req w e t id He Hr Hm Ha.
  assert (Hd : exists done,
             App.dispatch cfg req w = App.delete t done id w).
  { unfold App.dispatch. rewrite He, Hm.
    destruct e; try discriminate; inversion Hr; subst;
      rewrite require_auth_cases, Ha; eexists; reflexivity. }
  destruct Hd as [done Hd]. rewrite Hd. split; [| split].
  - destruct (delete_status t done id w) as [H | H]; rewrite H; discriminate.
  - intros Hw. exists done. now rewrite (delete_answered t done id w Hw).
  - intros Hw Hab req' Hp Hcase. unfold App.dispatch. rewrite Hp, He.
    destruct Hcase as [Hg | [Hput [Ha' [d Hd']]]].
    + rewrite Hg.
      destruct e; try discriminate; inversion Hr; subst;
        unfold App.get_project, App.get_certificate;
        now rewrite (get_one_absent _ _ _ w Hw Hab).
    + rewrite Hput.
      destruct e; try discriminate; inversion Hr; subst;
        rewrite require_auth_cases, Ha';
        unfold App.update_project, App.update_certificate;
        now rewrite (update_absent cfg _ _ _ req' d w Hw Hab Hd').
Qed.

Lemma delete_never_404_witness :
  status (fst (App.dispatch cfg_no_templates
                 (request DELETE ["api"; "certificados"; "99999"]
                          bearer_admin PayloadAbsent)
                 certificates_world)) <> 404
  /\ (answers 1 certificates_world ->
      exists msg,
        fst (App.dispatch cfg_no_templates
               (request DELETE ["api"; "certificados"; "99999"]
                        bearer_admin PayloadAbsent)
               certificates_world) = json_message msg 200).
Proof.
  split;
    apply (delete_never_404 cfg_no_templates
             (request DELETE ["api"; "certificados"; "99999"]
                      bearer_admin PayloadAbsent)
             certificates_world (App.ECertificado 99999)
             Certificados 99999);
    reflexivity.
Defined.

(** ** The login form *)

Lemma dispatch_index_post : forall cfg req,
  App.url_map (path req) = Some App.EIndex ->
  method req = POST ->
  App.dispatch cfg req = App.index cfg req.
Proof.
  intros cfg req He Hm. unfold App.dispatch. now rewrite He, Hm.
Qed.

(** C5 (as stated) fails: with the login template in place, a wrong
    password is answered with the login page again and status 200, not
    with an error status. *)
Lemma wrong_password_answered_200 :
  ~ (forall cfg req w password,
       App.url_map (path req) = Some App.EIndex ->
       method req = POST ->
       form_password req = Some password ->
       password <> ADMIN_PASSWORD cfg ->
       400 <= status (fst (App.dispatch cfg req w))).
Proof.
  intros H.
  assert (Hne : "wrong" <> ADMIN_PASSWORD cfg_templates)
    by (simpl; discriminate).
  specialize (H cfg_templates (login_request "wrong") empty_world "wrong"
                eq_refl eq_refl eq_refl Hne).
  vm_compute in H. apply H. reflexivity.
Qed.

(** C5 (amended): a POST to the root route whose form password differs
    from the admin secret leaves the session as it was (it is not marked
    as logged in) and is not redirected to the dashboard.  The answer is
    the login page rendered again with the message "Senha inválida" and
    status 200 when the login template exists and renders, and the JSON
    error {error: "Senha inválida"} with status 401 otherwise. *)
Theorem wrong_password_not_logged_in :
  forall cfg req w password,
    App.url_map (path req) = Some App.EIndex ->
    method req = POST ->
    form_password req = Some password ->
    password <> ADMIN_PASSWORD cfg ->
    snd (App.dispatch cfg req w) = w
    /\ ((template_exists cfg "login.html" = true /\
         exists html,
           render_template cfg "login.html" (Some App.login_error) = Ok html
           /\ fst (App.dispatch cfg req w) = mkResponse 200 (BHtml html))
        \/ ((template_exists cfg "login.html" = false \/
             exists e,
               render_template cfg "login.html" (Some App.login_error)
               = Raise e)
            /\ fst (App.dispatch cfg req w) =
               json_error App.login_error 401)).
Proof.
  intros cfg req w password He Hm Hf Hne.
  rewrite (dispatch_index_post cfg req He Hm).
  unfold App.index. rewrite Hm, Hf.
  assert (Hp : String.eqb password (ADMIN_PASSWORD cfg) = false).
  { destruct (String.eqb password (ADMIN_PASSWORD cfg)) eqn:E;
      [| reflexivity].
    apply String.eqb_eq in E. contradiction. }
  rewrite Hp, andb_false_r. unfold App.invalid_password.
  destruct (template_exists cfg "login.html").
  - destruct (render_template cfg "login.html" (Some App.login_error))
      as [html | e]; simpl.
    + split; [reflexivity |]. left. split; [reflexivity |].
      exists html. split; reflexivity.
    + split; [reflexivity |]. right. split; [| reflexivity].
      right. exists e. reflexivity.
  - simpl. split; [reflexivity |]. right. split; [| reflexivity].
    left. reflexivity.
Qed.

Lemma wrong_password_not_logged_in_witness :
  snd (App.dispatch cfg_templates (login_request "wrong") empty_world)
  = empty_world.
Proof.
  apply (wrong_password_not_logged_in cfg_templates (login_request "wrong")
           empty_world "wrong");
    try reflexivity.
  simpl. discriminate.
Defined.

(** The password that matches marks the session and is sent on to the
    dashboard. *)
Lemma right_password_logs_in : forall cfg req w,
  App.url_map (path req) = Some App.EIndex ->
  method req = POST ->
  form_password req = Some (ADMIN_PASSWORD cfg) ->
  ADMIN_PASSWORD cfg <> "" ->
  App.dispatch cfg req w =
    (redirect "/admin", set_session "logged_in" (JBool true) w).
Proof.
  intros cfg req w He Hm Hf Hne.
  rewrite (dispatch_index_post cfg req He Hm).
  unfold App.index. rewrite Hm, Hf, String.eqb_refl. simpl.
  destruct (String.eqb (ADMIN_PASSWORD cfg) "") eqn:E; [| reflexivity].
  apply String.eqb_eq in E. contradiction.
Qed.

(** The login view of admin.py: a wrong password gets the login page
    again, with status 200, or the 500 of a failed rendering; the session
    is left alone. *)
Lemma admin_login_wrong_password : forall cfg req w password,
  method req = POST ->
  form_password req = Some password ->
  password <> ADMIN_PASSWORD cfg ->
  snd (Admin.login cfg req w) = w
  /\ (status (fst (Admin.login cfg req w)) = 200 \/
      fst (Admin.login cfg req w) = json_error "Internal server error" 500).
Proof.
  intros cfg req w password Hm Hf Hne. unfold Admin.login.
  rewrite Hm, Hf.
  destruct (String.eqb password (ADMIN_PASSWORD cfg)) eqn:E.
  - apply String.eqb_eq in E. contradiction.
  - unfold Admin.render, Admin.internal_error.
    destruct (render_template cfg "login.html" (Some "Invalid password"));
      simpl; auto.
Qed.

(** ** Error envelopes *)

Lemma require_auth_envelope : forall cfg f req,
  keeps_envelope f -> keeps_envelope (App.require_auth cfg f req).
Proof.
  intros cfg f req Hf w. rewrite require_auth_cases.
  destruct (authorized cfg req); [apply Hf | envelope].
Qed.

Lemma list_all_envelope : forall t, keeps_envelope (App.list_all t).
Proof. crunch_view. Qed.

Lemma create_envelope : forall cfg t fields req,
  keeps_envelope (App.create cfg t fields req).
Proof. crunch_view. Qed.

Lemma get_one_envelope : forall t missing id,
  keeps_envelope (App.get_one t missing id).
Proof. crunch_view. Qed.

Lemma update_envelope : forall cfg t missing id req,
  keeps_envelope (App.update cfg t missing id req).
Proof. crunch_view. Qed.

Lemma delete_envelope : forall t done id,
  keeps_envelope (App.delete t done id).
Proof. crunch_view. Qed.

Lemma get_certificates_envelope : forall req,
  keeps_envelope (App.get_certificates req).
Proof. crunch_view. Qed.

Lemma get_visits_envelope : keeps_envelope App.get_visits.
Proof. crunch_view. Qed.

Lemma increment_visits_envelope : keeps_envelope App.increment_visits.
Proof. crunch_view. Qed.

Lemma index_envelope : forall cfg req, keeps_envelope (App.index cfg req).
Proof. crunch_view. Qed.

Lemma admin_dashboard_envelope : forall cfg,
  keeps_envelope (App.admin_dashboard cfg).
Proof. crunch_view. Qed.

Lemma dispatch_envelope : forall cfg req, keeps_envelope (App.dispatch cfg req).
Proof.
  intros cfg req. unfold App.dispatch.
  destruct (App.url_map (path req)) as [e |]; [| intros w; envelope].
  destruct e, (method req);
    try apply require_auth_envelope;
    first
      [ apply list_all_envelope | apply create_envelope
      | apply get_one_envelope | apply update_envelope
      | apply delete_envelope | apply get_certificates_envelope
      | apply get_visits_envelope | apply increment_visits_envelope
      | apply index_envelope | apply admin_dashboard_envelope
      | intros w; envelope ].
Qed.

(** C8: every response of the application with status 400, 401, 404 or
    500 has as body a JSON object whose [error] field is a string. *)
Theorem error_responses_have_error_field :
  forall cfg req w,
    In (status (fst (App.dispatch cfg req w))) [400; 401; 404; 500] ->
    exists msg,
      body (fst (App.dispatch cfg req w)) = BJson (JObj [("error", JStr msg)]).
Proof.
  intros cfg req w Hin.
  destruct (dispatch_envelope cfg req w) as [[msg [code Hr]] | Hs].
  - exists msg. now rewrite Hr.
  - exfalso. simpl in Hin.
    destruct Hs as [Hs | [Hs | [Hs | Hs]]]; rewrite Hs in Hin;
      repeat (destruct Hin as [Hin | Hin]; [discriminate |]);
      contradiction.
Qed.

Lemma error_responses_have_error_field_witness :
  exists msg,
    body (fst (App.dispatch cfg_no_templates
                 (request GET ["api"; "nonexistent"] None PayloadAbsent)
                 empty_world))
    = BJson (JObj [("error", JStr msg)]).
Proof.
  apply (error_responses_have_error_field cfg_no_templates
           (request GET ["api"; "nonexistent"] None PayloadAbsent)
           empty_world).
  simpl. right. right. left. reflexivity.
Defined.

(* ================================================================== *)
(** * Further properties of the views *)

(** ** Tokens of a header and the secret *)

Lemma has_space_append : forall a b,
  has_space (a ++ b)%string = has_space a || has_space b.
Proof.
  intros a b. induction a as [| c a IH]; simpl.
  - reflexivity.
  - now rewrite IH, orb_assoc.
Qed.

Lemma append_empty_r : forall s : string, (s ++ "")%string = s.
Proof.
  induction s as [| c s IH]; simpl; [reflexivity | now rewrite IH].
Qed.

Lemma append_snoc : forall (a : string) (c : ascii) (b : string),
  ((a ++ String c "") ++ b)%string = (a ++ String c b)%string.
Proof.
  intros a c b. induction a as [| x a IH]; simpl;
    [reflexivity | now rewrite IH].
Qed.

(** The tokens [split()] gives are non-empty and hold no whitespace. *)
Lemma split_from_tokens : forall s cur,
  has_space cur = false ->
  Forall (fun t => t <> "" /\ has_space t = false) (split_from cur s).
Proof.
  induction s as [| c s IH]; intros cur Hc; simpl.
  - destruct cur; [constructor |].
    constructor; [split; [discriminate | exact Hc] | constructor].
  - destruct (isspace c) eqn:Ec.
    + destruct cur.
      * apply IH. reflexivity.
      * constructor; [split; [discriminate | exact Hc] |].
        apply IH. reflexivity.
    + apply IH. rewrite has_space_append, Hc. simpl. now rewrite Ec.
Qed.

(** A string without whitespace is one token, or none when empty. *)
Lemma split_from_word : forall s cur,
  has_space s = false ->
  split_from cur s =
  match (cur ++ s)%string with
  | EmptyString => []
  | t => [t]
  end.
Proof.
  induction s as [| c s IH]; intros cur Hs; simpl.
  - rewrite append_empty_r. destruct cur; reflexivity.
  - simpl in Hs. apply orb_false_iff in Hs. destruct Hs as [Ec Hs].
    rewrite Ec, (IH _ Hs), append_snoc. reflexivity.
Qed.

Lemma authorized_token : forall cfg req,
  authorized cfg req = true ->
  ADMIN_PASSWORD cfg <> "" /\ has_space (ADMIN_PASSWORD cfg) = false.
Proof.
  intros cfg req H. apply authorized_split in H.
  destruct H as [h [_ Hs]].
  assert (Ht := split_from_tokens h "" eq_refl).
  fold (split h) in Ht. rewrite Hs in Ht.
  inversion Ht as [| ? ? _ Ht2]. inversion Ht2 as [| ? ? Ht3 _].
  exact Ht3.
Qed.

(** When the configured admin secret is empty or holds a whitespace
    character, no Authorization header passes the guard: every request
    to a guarded route is answered 401, whatever it carries, and nothing
    reaches the store. *)
Theorem unusable_secret_locks_out :
  forall cfg req e w,
    (ADMIN_PASSWORD cfg = "" \/ has_space (ADMIN_PASSWORD cfg) = true) ->
    App.url_map (path req) = Some e ->
    guarded e (method req) = true ->
    exists msg, App.dispatch cfg req w = (json_error msg 401, w).
Proof.
  intros cfg req e w Hbad He Hg.
  destruct (dispatch_guarded cfg req e He Hg) as [f Hf].
  rewrite Hf, require_auth_cases.
  destruct (authorized cfg req) eqn:Ea.
  - exfalso. destruct (authorized_token cfg req Ea) as [Hne Hsp].
    destruct Hbad as [Hbad | Hbad]; congruence.
  - eexists. reflexivity.
Qed.

Lemma unusable_secret_locks_out_witness :
  exists msg,
    App.dispatch (mkConfig "my secret" (fun _ => false)
                    (fun name _ => Raise name) false)
      (request DELETE ["api"; "projetos"; "1"] (Some "Bearer my secret")
               PayloadAbsent)
      projects_world
    = (json_error msg 401, projects_world).
Proof.
  apply (unusable_secret_locks_out _ _ (App.EProjeto 1)).
  - right. reflexivity.
  - reflexivity.
  - reflexivity.
Defined.

(** When the admin secret is non-empty and free of whitespace, the
    header "Bearer <secret>" passes the guard: the wrapped view runs and
    its answer is returned. *)
Theorem bearer_secret_passes_guard :
  forall cfg f req w,
    ADMIN_PASSWORD cfg <> "" ->
    has_space (ADMIN_PASSWORD cfg) = false ->
    authorization req = Some ("Bearer " ++ ADMIN_PASSWORD cfg)%string ->
    App.require_auth cfg f req w = f w.
Proof.
  intros cfg f req w Hne Hsp Ha.
  rewrite require_auth_cases.
  assert (Hauth : authorized cfg req = true).
  { apply authorized_split. eexists. split; [exact Ha |].
    unfold split. simpl.
    rewrite (split_from_word _ "" Hsp). simpl.
    destruct (ADMIN_PASSWORD cfg); [contradiction | reflexivity]. }
  now rewrite Hauth.
Qed.

Lemma bearer_secret_passes_guard_witness :
  App.require_auth cfg_no_templates App.health_check
    (request GET ["health"] (Some "Bearer admin123") PayloadAbsent)
    empty_world
  = App.health_check empty_world.
Proof.
  apply (bearer_secret_passes_guard cfg_no_templates).
  - simpl. discriminate.
  - reflexivity.
  - reflexivity.
Defined.

(** ** Record ids in the path *)








(** ** Creating, reading, updating and deleting a record *)

Lemma all_in_dict : forall fields d,
  all_in fields (JObj d) = Ok (forallb (fun f => dict_has f d) fields).
Proof.
  intros fields d. induction fields as [| g fs IH]; simpl.
  - reflexivity.
  - destruct (dict_has g d); [exact IH | reflexivity].
Qed.

Lemma dispatch_create_table : forall cfg req e fields t w,
  App.url_map (path req) = Some e ->
  method req = POST ->
  create_fields e = Some fields ->
  collection e = Some t ->
  authorized cfg req = true ->
  App.dispatch cfg req w = App.create cfg t fields req w.
Proof.
  intros cfg req e fields t w He Hm Hf Hc Ha. unfold App.dispatch.
  rewrite He, Hm.
  destruct e; try discriminate; inversion Hf; inversion Hc; subst;
    rewrite require_auth_cases, Ha; reflexivity.
Qed.

Lemma create_accepted : forall cfg t fields req d w,
  payload req = PayloadJson (JObj d) ->
  forallb (fun f => dict_has f d) fields = true ->
  answers 1 w ->
  App.create cfg t fields req w =
    (json_rows [created_row w d] 201,
     after (Insert t (dict_set "created_at" (JStr (utcnow w)) d)) w).
Proof.
  intros cfg t fields req d w Hp Hall Ha.
  unfold App.create, App.get_json, try_except, bind. rewrite Hp. simpl.
  unfold lift. rewrite all_in_dict, Hall. simpl.
  rewrite (execute_answers _ 0 w Ha). reflexivity.
Qed.

Lemma rows_after_insert : forall t r w,
  rows_of t (store (after (Insert t r) w)) =
  rows_of t (store w) ++ [with_id (next_id (store w)) r].
Proof. intros [] r w; reflexivity. Qed.

Lemma dict_get_with_id : forall k n r,
  String.eqb k "id" = false ->
  dict_get k (with_id n r) = dict_get k r.
Proof.
  intros k n r Hk. unfold with_id.
  destruct (dict_has "id" r); [reflexivity |]. simpl. now rewrite Hk.
Qed.

(** An authenticated POST /api/projetos or /api/certificados whose JSON
    object has every required field, the storage service answering, is
    answered 201 with an array holding the one record created.  That
    record is appended to the table; it keeps every field of the payload
    except that [created_at] is the time of the server, also when the
    client sent one of its own. *)
Theorem create_stores_stamped_record :
  forall cfg req w e fields t d,
    App.url_map (path req) = Some e ->
    method req = POST ->
    create_fields e = Some fields ->
    collection e = Some t ->
    authorized cfg req = true ->
    payload req = PayloadJson (JObj d) ->
    (forall f, In f fields -> dict_has f d = true) ->
    answers 1 w ->
    fst (App.dispatch cfg req w) = json_rows [created_row w d] 201
    /\ rows_of t (store (snd (App.dispatch cfg req w))) =
       rows_of t (store w) ++ [created_row w d]
    /\ dict_get "created_at" (created_row w d) = Some (JStr (utcnow w))
    /\ (forall k, k <> "created_at" -> k <> "id" ->
        dict_get k (created_row w d) = dict_get k d).
Proof.
  intros cfg req w e fields t d He Hm Hf Hc Ha Hp Hall Hw.
  rewrite (dispatch_create_table cfg req e fields t w He Hm Hf Hc Ha).
  assert (Hb : forallb (fun f => dict_has f d) fields = true)
    by (apply forallb_forall; exact Hall).
  rewrite (create_accepted cfg t fields req d w Hp Hb Hw).
  split; [reflexivity |]. split; [apply rows_after_insert |]. split.
  - unfold created_row. rewrite dict_get_with_id by reflexivity.
    apply dict_get_set_same.
  - intros k Hk1 Hk2. unfold created_row.
    rewrite dict_get_with_id by (now apply String.eqb_neq).
    apply dict_get_set_other. now apply String.eqb_neq.
Qed.

Lemma create_stores_stamped_record_witness :
  fst (App.dispatch cfg_no_templates
         (request POST ["api"; "projetos"] bearer_admin
            (PayloadJson
               (JObj (("created_at", JStr "1999-01-01") :: project_payload))))
         projects_world)
  = json_rows
      [created_row projects_world
         (("created_at", JStr "1999-01-01") :: project_payload)] 201.
Proof.
  apply (create_stores_stamped_record cfg_no_templates _ _ App.EProjetos
           App.project_fields Projetos);
    try reflexivity.
  - intros f [<- | [<- | [<- | []]]]; reflexivity.
  - constructor.
Defined.

Lemma filter_app_last : forall (p : row -> bool) rs r,
  (forall x, In x rs -> p x = false) -> p r = true ->
  filter p (rs ++ [r]) = [r].
Proof.
  intros p rs r Hn Hr. rewrite filter_app, (filter_none _ _ _ Hn).
  simpl. now rewrite Hr.
Qed.

Lemma dispatch_get_one : forall cfg req e t id,
  App.url_map (path req) = Some e ->
  resource e = Some (t, id) ->
  method req = GET ->
  exists missing, App.dispatch cfg req = App.get_one t missing id.
Proof.
  intros cfg req e t id He Hr Hm. unfold App.dispatch. rewrite He, Hm.
  destruct e; try discriminate; inversion Hr; subst; eexists; reflexivity.
Qed.

Lemma get_one_found : forall t missing id w r rest,
  answers 1 w ->
  filter (col_eq "id" (JNum id)) (rows_of t (store w)) = r :: rest ->
  fst (App.get_one t missing id w) = mkResponse 200 (BJson (JObj r)).
Proof.
  intros t missing id w r rest Ha Hf. unfold App.get_one, try_except, bind.
  rewrite (execute_answers _ 0 w Ha). simpl. now rewrite Hf.
Qed.

(** Create, then read: when the payload names no id of its own and the
    id the service gives is not yet in the table, a GET of that id right
    after the create is answered 200 with the record the create
    returned. *)
Theorem create_then_get :
  forall cfg req req' w e e' fields t d,
    App.url_map (path req) = Some e ->
    method req = POST ->
    create_fields e = Some fields ->
    collection e = Some t ->
    authorized cfg req = true ->
    payload req = PayloadJson (JObj d) ->
    (forall f, In f fields -> dict_has f d = true) ->
    dict_has "id" d = false ->
    absent t (next_id (store w)) w ->
    App.url_map (path req') = Some e' ->
    resource e' = Some (t, next_id (store w)) ->
    method req' = GET ->
    answers 2 w ->
    fst (App.dispatch cfg req' (snd (App.dispatch cfg req w))) =
      mkResponse 200 (BJson (JObj (created_row w d)))
    /\ fst (App.dispatch cfg req w) = json_rows [created_row w d] 201.
Proof.
  intros cfg req req' w e e' fields t d He Hm Hf Hc Ha Hp Hall Hid Hab
         He' Hr' Hm' Hw.
  rewrite (dispatch_create_table cfg req e fields t w He Hm Hf Hc Ha).
  assert (Hb : forallb (fun f => dict_has f d) fields = true)
    by (apply forallb_forall; exact Hall).
  rewrite (create_accepted cfg t fields req d w Hp Hb (answers_le 1 w Hw)).
  split; [| reflexivity]. cbn [snd].
  destruct (dispatch_get_one cfg req' e' t _ He' Hr' Hm') as [missing Hg].
  rewrite Hg.
  apply (get_one_found t missing _ _ (created_row w d) []).
  - apply answers_after. exact Hw.
  - rewrite rows_after_insert. apply filter_app_last; [exact Hab |].
    unfold created_row, with_id, col_eq.
    assert (Hd : dict_has "id" (dict_set "created_at" (JStr (utcnow w)) d)
                 = false).
    { unfold dict_has in *.
      rewrite dict_get_set_other by reflexivity. exact Hid. }
    rewrite Hd. simpl. apply Z.eqb_refl.
Qed.

Lemma create_then_get_witness :
  fst (App.dispatch cfg_no_templates
         (request GET ["api"; "projetos"; "2"] None PayloadAbsent)
         (snd (App.dispatch cfg_no_templates
                 (request POST ["api"; "projetos"] bearer_admin
                    (PayloadJson (JObj project_payload)))
                 projects_world)))
  = mkResponse 200
      (BJson (JObj (created_row projects_world project_payload))).
Proof.
  apply (create_then_get cfg_no_templates _ _ projects_world App.EProjetos
           (App.EProjeto 2) App.project_fields Projetos project_payload);
    try reflexivity.
  - intros f [<- | [<- | [<- | []]]]; reflexivity.
  - intros r [<- | []]. reflexivity.
  - constructor.
Defined.

Lemma dispatch_update : forall cfg req e t id w,
  App.url_map (path req) = Some e ->
  resource e = Some (t, id) ->
  method req = PUT ->
  authorized cfg req = true ->
  exists missing, App.dispatch cfg req w = App.update cfg t missing id req w.
Proof.
  intros cfg req e t id w He Hr Hm Ha. unfold App.dispatch. rewrite He, Hm.
  destruct e; try discriminate; inversion Hr; subst;
    rewrite require_auth_cases, Ha; eexists; reflexivity.
Qed.

Lemma update_sent : forall cfg t missing id req d w,
  payload req = PayloadJson (JObj d) ->
  answers 1 w ->
  App.update cfg t missing id req w =
    (match map (dict_update (update_patch w d))
               (filter (col_eq "id" (JNum id)) (rows_of t (store w))) with
     | [] => json_error missing 404
     | r :: _ => mkResponse 200 (BJson (JObj r))
     end,
     after (UpdateEq t (update_patch w d) "id" (JNum id)) w).
Proof.
  intros cfg t missing id req d w Hp Ha.
  unfold App.update, App.get_json, try_except, bind. rewrite Hp. simpl.
  rewrite (execute_answers _ 0 w Ha). simpl.
  destruct (map _ (filter _ (rows_of t (store w)))); reflexivity.
Qed.

Lemma rows_after_update : forall t patch col v w,
  rows_of t (store (after (UpdateEq t patch col v) w)) =
  map (fun r => if col_eq col v r then dict_update patch r else r)
      (rows_of t (store w)).
Proof. intros [] patch col v w; reflexivity. Qed.

Lemma other_table_after : forall q t t' w,
  (match q with
   | Select u _ | SelectEq u _ _ | Insert u _ | UpdateEq u _ _ _
   | DeleteEq u _ _ => u
   end) = t ->
  t' <> t ->
  rows_of t' (store (after q w)) = rows_of t' (store w).
Proof.
  intros q t t' w Hq Hne.
  destruct q; simpl in Hq; subst; destruct t, t'; try reflexivity;
    contradiction.
Qed.

(** An authenticated PUT with a JSON object as body, the storage
    service answering, on an id that one or more rows carry: the answer
    is 200 with the first such row after the fields of the body and the
    server's [updated_at] are written into it.  The table keeps its
    number of rows, a row with another id is left exactly as it was, and
    the other tables are not touched. *)
Theorem update_existing_record :
  forall cfg req w e t id d r rest,
    App.url_map (path req) = Some e ->
    resource e = Some (t, id) ->
    method req = PUT ->
    authorized cfg req = true ->
    payload req = PayloadJson (JObj d) ->
    answers 1 w ->
    filter (col_eq "id" (JNum id)) (rows_of t (store w)) = r :: rest ->
    fst (App.dispatch cfg req w) =
      mkResponse 200 (BJson (JObj (dict_update (update_patch w d) r)))
    /\ List.length (rows_of t (store (snd (App.dispatch cfg req w)))) =
       List.length (rows_of t (store w))
    /\ (forall x, In x (rows_of t (store w)) ->
                  col_eq "id" (JNum id) x = false ->
                  In x (rows_of t (store (snd (App.dispatch cfg req w)))))
    /\ (forall t', t' <> t ->
          rows_of t' (store (snd (App.dispatch cfg req w))) =
          rows_of t' (store w)).
Proof.
  intros cfg req w e t id d r rest He Hr Hm Ha Hp Hw Hf.
  destruct (dispatch_update cfg req e t id w He Hr Hm Ha) as [missing Hd].
  rewrite Hd, (update_sent cfg t missing id req d w Hp Hw), Hf.
  cbn [fst snd map]. split; [reflexivity |].
  rewrite rows_after_update. split; [apply length_map |]. split.
  - intros x Hx Hne. apply in_map_iff. exists x. now rewrite Hne.
  - intros t' Hne. now apply (other_table_after _ t).
Qed.

Lemma update_existing_record_witness :
  fst (App.dispatch cfg_no_templates
         (request PUT ["api"; "projetos"; "1"] bearer_admin
            (PayloadJson (JObj [("titulo", JStr "Renamed")])))
         projects_world)
  = mkResponse 200
      (BJson (JObj (dict_update
                      (update_patch projects_world
                                    [("titulo", JStr "Renamed")])
                      (("id", JNum 1) :: project_payload)))).
Proof.
  apply (update_existing_record cfg_no_templates _ projects_world
           (App.EProjeto 1) Projetos 1 [("titulo", JStr "Renamed")]
           (("id", JNum 1) :: project_payload) []);
    try reflexivity.
  constructor.
Defined.

(** An authenticated PUT whose body is absent or is not a JSON object
    is answered 500: stamping [updated_at] raises on every such body,
    an array or a string included, and no update is sent.  (An empty
    object is a body like any other: it has no required field.) *)
Theorem update_non_object_500 :
  forall cfg req w e t id,
    App.url_map (path req) = Some e ->
    resource e = Some (t, id) ->
    method req = PUT ->
    authorized cfg req = true ->
    (forall d, payload req <> PayloadJson (JObj d)) ->
    exists msg, App.dispatch cfg req w = (json_error msg 500, w).
Proof.
  intros cfg req w e t id He Hr Hm Ha Hp.
  destruct (dispatch_update cfg req e t id w He Hr Hm Ha) as [missing Hd].
  rewrite Hd. unfold_views.
  destruct (payload req) as [[| b | n | s | l | d] |];
    try (simpl; eexists; reflexivity).
  - exfalso. exact (Hp d eq_refl).
  - destruct (get_json_returns_none cfg); simpl; eexists; reflexivity.
Qed.

Lemma update_non_object_500_witness :
  exists msg,
    App.dispatch cfg_no_templates
      (request PUT ["api"; "projetos"; "1"] bearer_admin
               (PayloadJson (JArr [JStr "titulo"])))
      projects_world
    = (json_error msg 500, projects_world).
Proof.
  apply (update_non_object_500 cfg_no_templates _ _ (App.EProjeto 1)
           Projetos 1);
    try reflexivity.
  intros d. discriminate.
Defined.

Lemma rows_after_delete : forall t col v w,
  rows_of t (store (after (DeleteEq t col v) w)) =
  filter (fun r => negb (col_eq col v r)) (rows_of t (store w)).
Proof. intros [] col v w; reflexivity. Qed.

Lemma dispatch_delete : forall cfg req e t id w,
  App.url_map (path req) = Some e ->
  resource e = Some (t, id) ->
  method req = DELETE ->
  authorized cfg req = true ->
  exists done, App.dispatch cfg req w = App.delete t done id w.
Proof.
  intros cfg req e t id w He Hr Hm Ha. unfold App.dispatch. rewrite He, Hm.
  destruct e; try discriminate; inversion Hr; subst;
    rewrite require_auth_cases, Ha; eexists; reflexivity.
Qed.

Lemma filter_twice : forall (A : Type) (p : A -> bool) (l : list A),
  filter p (filter p l) = filter p l.
Proof.
  intros A p l. induction l as [| a l IH]; simpl; [reflexivity |].
  destruct (p a) eqn:E; simpl; [now rewrite E, IH | exact IH].
Qed.

(** Delete, then read: after an authenticated DELETE of an id, the
    storage service answering, no row of the table carries that id, a
    GET of it is answered 404, the rows with another id are all still
    there, and a second DELETE of the same id is answered like the first
    and leaves the store as the first left it. *)
Theorem delete_then_get_404 :
  forall cfg req req' w e t id,
    App.url_map (path req) = Some e ->
    resource e = Some (t, id) ->
    method req = DELETE ->
    authorized cfg req = true ->
    path req' = path req ->
    method req' = GET ->
    answers 2 w ->
    status (fst (App.dispatch cfg req' (snd (App.dispatch cfg req w)))) = 404
    /\ absent t id (snd (App.dispatch cfg req w))
    /\ (forall x, In x (rows_of t (store w)) ->
                  col_eq "id" (JNum id) x = false ->
                  In x (rows_of t (store (snd (App.dispatch cfg req w)))))
    /\ fst (App.dispatch cfg req (snd (App.dispatch cfg req w))) =
       fst (App.dispatch cfg req w)
    /\ store (snd (App.dispatch cfg req (snd (App.dispatch cfg req w)))) =
       store (snd (App.dispatch cfg req w)).
Proof.
  intros cfg req req' w e t id He Hr Hm Ha Hp' Hm' Hw.
  assert (Hw1 : answers 1 w) by now apply answers_le.
  assert (Hab : absent t id (after (DeleteEq t "id" (JNum id)) w)).
  { intros x Hx. rewrite rows_after_delete in Hx.
    apply filter_In in Hx. destruct Hx as [_ Hx].
    now apply negb_true_iff in Hx. }
  assert (Hw' : answers 1 (after (DeleteEq t "id" (JNum id)) w))
    by now apply answers_after.
  destruct (dispatch_delete cfg req e t id w He Hr Hm Ha) as [done Hd].
  destruct (dispatch_delete cfg req e t id
              (after (DeleteEq t "id" (JNum id)) w) He Hr Hm Ha)
    as [done' Hd'].
  assert (Hsame : done' = done).
  { unfold App.dispatch in Hd, Hd'. rewrite He, Hm in Hd, Hd'.
    destruct e; try discriminate;
      rewrite require_auth_cases, Ha in Hd, Hd';
      unfold App.delete_project, App.delete_certificate in Hd, Hd';
      rewrite !delete_answered in Hd, Hd' by assumption;
      inversion Hd; inversion Hd'; subst; reflexivity. }
  subst done'.
  rewrite Hd, (delete_answered t done id w Hw1). cbn [fst snd].
  rewrite Hd', (delete_answered t done id _ Hw'). cbn [fst snd].
  split; [| split; [exact Hab | split; [| split; [reflexivity |]]]].
  - rewrite <- Hp' in He.
    destruct (dispatch_get_one cfg req' e t id He Hr Hm') as [missing Hg].
    rewrite Hg, (get_one_absent t missing id _ Hw' Hab). reflexivity.
  - intros x Hx Hne. rewrite rows_after_delete. apply filter_In.
    split; [exact Hx | now rewrite Hne].
  - unfold after at 1. cbn [store].
    destruct t; simpl; f_equal; apply filter_twice.
Qed.

Lemma delete_then_get_404_witness :
  status (fst (App.dispatch cfg_no_templates
                 (request GET ["api"; "projetos"; "1"] None PayloadAbsent)
                 (snd (App.dispatch cfg_no_templates
                         (request DELETE ["api"; "projetos"; "1"]
                                  bearer_admin PayloadAbsent)
                         projects_world)))) = 404.
Proof.
  exact (proj1 (delete_then_get_404 cfg_no_templates
                  (request DELETE ["api"; "projetos"; "1"] bearer_admin
                           PayloadAbsent)
                  (request GET ["api"; "projetos"; "1"] None PayloadAbsent)
                  projects_world (App.EProjeto 1) Projetos 1
                  eq_refl eq_refl eq_refl eq_refl eq_refl eq_refl
                  (Forall_nil _))).
Defined.

(** ** When the storage service raises *)

Lemma execute_fault : forall q w msg fs,
  faults w = Some msg :: fs ->
  execute q w =
    (Raise msg, mkWorld (store w) (issued w ++ [q]) fs (session w) (utcnow w)).
Proof.
  intros q w msg fs H. unfold execute. now rewrite H.
Qed.

(** When the first query of a view is refused by the storage service,
    the answer is 500 and its [error] field is the very message the
    service raised, unredacted; the rows and the session are as before.
    This holds on every route whose view gets to its query: the public
    reads, the counter, and the guarded writes once the guard and the
    validation of the body are passed. *)
Theorem backend_failure_surfaces_message :
  forall cfg req w msg fs,
    reaches_backend cfg req = true ->
    faults w = Some msg :: fs ->
    fst (App.dispatch cfg req w) = json_error msg 500
    /\ store (snd (App.dispatch cfg req w)) = store w
    /\ session (snd (App.dispatch cfg req w)) = session w.
Proof.
  intros cfg req w msg fs Hr Hf.
  unfold reaches_backend in Hr. unfold App.dispatch.
  destruct (App.url_map (path req)) as [e |]; [| discriminate].
  destruct e, (method req); try discriminate;
    try (first_call_raises Hf).
  - apply andb_true_iff in Hr. destruct Hr as [Ha Hp].
    rewrite require_auth_cases, Ha.
    unfold App.create_project, App.create, App.get_json, try_except, bind,
      lift, ret, now_isoformat.
    destruct (payload req) as [[| b | n | s | l | d] |]; try discriminate.
    rewrite all_in_dict, Hp. simpl.
    rewrite (execute_fault _ w msg fs Hf). repeat split; reflexivity.
  - apply andb_true_iff in Hr. destruct Hr as [Ha Hp].
    rewrite require_auth_cases, Ha.
    unfold App.update_project, App.update, App.get_json, try_except, bind,
      lift, ret, now_isoformat.
    destruct (payload req) as [[| b | n | s | l | d] |]; try discriminate.
    simpl.
    rewrite (execute_fault _ w msg fs Hf). repeat split; reflexivity.
  - rewrite require_auth_cases, Hr.
    unfold App.delete_project, App.delete, try_except, bind.
    rewrite (execute_fault _ w msg fs Hf). repeat split; reflexivity.
  - unfold App.get_certificates, try_except, bind.
    destruct (arg_origem req) as [origem |];
      [destruct (truthy (JStr origem)) |];
      rewrite (execute_fault _ w msg fs Hf); repeat split; reflexivity.
  - apply andb_true_iff in Hr. destruct Hr as [Ha Hp].
    rewrite require_auth_cases, Ha.
    unfold App.create_certificate, App.create, App.get_json, try_except,
      bind, lift, ret, now_isoformat.
    destruct (payload req) as [[| b | n | s | l | d] |]; try discriminate.
    rewrite all_in_dict, Hp. simpl.
    rewrite (execute_fault _ w msg fs Hf). repeat split; reflexivity.
  - apply andb_true_iff in Hr. destruct Hr as [Ha Hp].
    rewrite require_auth_cases, Ha.
    unfold App.update_certificate, App.update, App.get_json, try_except,
      bind, lift, ret, now_isoformat.
    destruct (payload req) as [[| b | n | s | l | d] |]; try discriminate.
    simpl.
    rewrite (execute_fault _ w msg fs Hf). repeat split; reflexivity.
  - rewrite require_auth_cases, Hr.
    unfold App.delete_certificate, App.delete, try_except, bind.
    rewrite (execute_fault _ w msg fs Hf). repeat split; reflexivity.
Qed.

Lemma backend_failure_surfaces_message_witness :
  fst (App.dispatch cfg_no_templates
         (request POST ["api"; "visitas"] None PayloadAbsent)
         (failing_world "connection refused"))
  = json_error "connection refused" 500.
Proof.
  exact (proj1 (backend_failure_surfaces_message cfg_no_templates
                  (request POST ["api"; "visitas"] None PayloadAbsent)
                  (failing_world "connection refused")
                  "connection refused" [] eq_refl eq_refl)).
Defined.

(** ** Listing certificates without a filter *)

(** GET /api/certificados without an [origem] parameter, or with an
    empty one ([?origem=]), is not filtered: the storage service
    answering, the answer is 200 with every stored certificate, in the
    order of the table. *)
Theorem certificates_unfiltered :
  forall cfg req w,
    App.url_map (path req) = Some App.ECertificados ->
    method req = GET ->
    arg_origem req = None \/ arg_origem req = Some "" ->
    answers 1 w ->
    fst (App.dispatch cfg req w) = json_rows (certificados (store w)) 200.
Proof.
  intros cfg req w He Hm Ho Ha. unfold App.dispatch. rewrite He, Hm.
  unfold App.get_certificates, try_except, bind.
  destruct Ho as [-> | ->]; simpl;
    rewrite (execute_answers _ 0 w Ha); simpl;
    now rewrite select_all_rows.
Qed.

Lemma certificates_unfiltered_witness :
  fst (App.dispatch cfg_no_templates
         (mkRequest GET ["api"; "certificados"] None PayloadAbsent None
                    (Some ""))
         certificates_world)
  = json_rows (certificados (store certificates_world)) 200.
Proof.
  exact (certificates_unfiltered cfg_no_templates
           (mkRequest GET ["api"; "certificados"] None PayloadAbsent None
                      (Some ""))
           certificates_world eq_refl eq_refl (or_intror eq_refl)
           (Forall_nil _)).
Defined.

(** ** The visit counter over many requests *)

Lemma serve_cons : forall cfg r rs w,
  snd (serve cfg (r :: rs) w) = snd (serve cfg rs (snd (App.dispatch cfg r w))).
Proof.
  intros cfg r rs w. simpl.
  destruct (App.dispatch cfg r w) as [resp w1]. simpl.
  destruct (serve cfg rs w1). reflexivity.
Qed.

Lemma answers_weaken : forall n m w, (n <= m)%nat -> answers m w -> answers n w.
Proof.
  intros n m w Hle. induction Hle as [| m Hle IH]; intros H.
  - exact H.
  - apply IH. now apply answers_le.
Qed.

(** Any number of POST /api/visitas served one after the other, the
    storage service answering, add exactly that number to the stored
    total: no increment is lost and none counts twice.  The total is the
    one GET /api/visitas reports, zero for an empty table. *)
Theorem n_increments_add_n :
  forall cfg reqs w N,
    Forall is_visit_post reqs ->
    answers (2 * List.length reqs) w ->
    (forall r rest, visitas (store w) = r :: rest -> dict_has "id" r = true) ->
    visit_total (store w) = Some N ->
    visit_total (store (snd (serve cfg reqs w)))
    = Some (N + Z.of_nat (List.length reqs)).
Proof.
  intros cfg reqs. induction reqs as [| r rs IH]; intros w N Hall Ha Hid Ht.
  - simpl. rewrite Ht. f_equal. lia.
  - inversion Hall as [| ? ? [He Hm] Hrest]; subst.
    rewrite serve_cons, (dispatch_visits_post cfg r He Hm).
    assert (Ha2 : answers 2 w).
    { apply (answers_weaken 2 (2 * List.length (r :: rs)) w);
        [simpl; lia | exact Ha]. }
    destruct (visit_total_after_increment w N Ha2 Hid Ht) as [Ht1 Hid1].
    assert (Ha' : answers (2 * List.length rs)
                    (snd (App.increment_visits w))).
    { apply answers_after_increment.
      replace (2 + 2 * List.length rs)%nat
        with (2 * List.length (r :: rs))%nat by (simpl; lia).
      exact Ha. }
    rewrite (IH _ (N + 1) Hrest Ha' Hid1 Ht1). f_equal.
    change (List.length (r :: rs)) with (S (List.length rs)). lia.
Qed.

Lemma n_increments_add_n_witness :
  visit_total
    (store (snd (serve cfg_no_templates
                   [request POST ["api"; "visitas"] None PayloadAbsent;
                    request POST ["api"; "visitas"] None PayloadAbsent;
                    request POST ["api"; "visitas"] None PayloadAbsent]
                   empty_world)))
  = Some (0 + Z.of_nat 3).
Proof.
  apply (n_increments_add_n cfg_no_templates
           [request POST ["api"; "visitas"] None PayloadAbsent;
            request POST ["api"; "visitas"] None PayloadAbsent;
            request POST ["api"; "visitas"] None PayloadAbsent]
           empty_world 0).
  - repeat constructor.
  - constructor.
  - intros r rest H. discriminate.
  - reflexivity.
Defined.

Lemma dispatch_visits_get : forall cfg req,
  App.url_map (path req) = Some App.EVisitas ->
  method req = GET ->
  App.dispatch cfg req = App.get_visits.
Proof.
  intros cfg req He Hm. unfold App.dispatch. now rewrite He, Hm.
Qed.

(** Increment, then read: the total a POST /api/visitas answers is the
    total the next GET /api/visitas reports, one more than before; the
    POST is answered 201 when it had to create the record and 200 when it
    found one.  The GET changes no row. *)
Theorem increment_then_get :
  forall cfg post get w N,
    is_visit_post post ->
    App.url_map (path get) = Some App.EVisitas -> method get = GET ->
    answers 3 w ->
    (forall r rest, visitas (store w) = r :: rest -> dict_has "id" r = true) ->
    visit_total (store w) = Some N ->
    fst (App.dispatch cfg post w) =
      App.json_total (JNum (N + 1))
        (match visitas (store w) with [] => 201 | _ => 200 end)
    /\ fst (App.dispatch cfg get (snd (App.dispatch cfg post w))) =
       App.json_total (JNum (N + 1)) 200
    /\ store (snd (App.dispatch cfg get (snd (App.dispatch cfg post w)))) =
       store (snd (App.dispatch cfg post w)).
Proof.
  intros cfg post get w N [He Hm] Heg Hmg Ha Hid Ht.
  rewrite (dispatch_visits_post cfg post He Hm).
  rewrite (dispatch_visits_get cfg get Heg Hmg).
  assert (Ha2 : answers 2 w) by now apply answers_le.
  destruct (visit_total_after_increment w N Ha2 Hid Ht) as [Ht1 _].
  assert (Ha1 : answers 1 (snd (App.increment_visits w)))
    by now apply answers_after_increment.
  split; [| split].
  - unfold visit_total in Ht.
    destruct (visitas (store w)) as [| r rest] eqn:Hv.
    + inversion Ht; subst. now rewrite (increment_empty w Ha2 Hv).
    + destruct (dict_get "total" r) as [[| b | n | s | l | kvs] |] eqn:Et;
        try discriminate.
      inversion Ht; subst n.
      specialize (Hid r rest eq_refl). unfold dict_has in Hid.
      destruct (dict_get "id" r) as [id |] eqn:Ei; [| discriminate].
      now rewrite (increment_existing w r rest N id Ha2 Hv Et Ei).
  - apply get_visits_reads_total; assumption.
  - unfold App.get_visits, try_except, bind.
    rewrite (execute_answers _ 0 _ Ha1). unfold lift, ret.
    repeat (break_match; simpl in * );
      repeat match goal with
        | E : (_, _) = (_, _) |- _ => inversion E; subst; clear E
        end; reflexivity.
Qed.

Lemma increment_then_get_witness :
  fst (App.dispatch cfg_no_templates
         (request GET ["api"; "visitas"] None PayloadAbsent)
         (snd (App.dispatch cfg_no_templates
                 (request POST ["api"; "visitas"] None PayloadAbsent)
                 (counting_world 9))))
  = App.json_total (JNum (9 + 1)) 200.
Proof.
  refine (proj1 (proj2 (increment_then_get cfg_no_templates
            (request POST ["api"; "visitas"] None PayloadAbsent)
            (request GET ["api"; "visitas"] None PayloadAbsent)
            (counting_world 9) 9 (conj eq_refl eq_refl) eq_refl eq_refl
            (Forall_nil _) _ eq_refl))).
  intros r rest H. inversion H. reflexivity.
Defined.

(** A counter record the view cannot add one to -- no [total], or a
    [total] that is null, a string, an array or an object -- or one
    without an [id]: POST /api/visitas is answered 500, and the only
    query sent is the select; no update and no insert follow, the rows
    are as before. *)
Theorem increment_unusable_record :
  forall cfg req w r rest,
    is_visit_post req ->
    answers 1 w ->
    visitas (store w) = r :: rest ->
    (dict_get "total" r = None
     \/ (exists v, dict_get "total" r = Some v /\ countable v = false)
     \/ dict_get "id" r = None) ->
    (exists msg, fst (App.dispatch cfg req w) = json_error msg 500)
    /\ store (snd (App.dispatch cfg req w)) = store w
    /\ issued (snd (App.dispatch cfg req w)) =
       issued w ++ [Select Visitas None].
Proof.
  intros cfg req w r rest [He Hm] Ha Hv Hbad.
  rewrite (dispatch_visits_post cfg req He Hm).
  unfold App.increment_visits, try_except, bind.
  rewrite (execute_answers _ 0 w Ha). simpl.
  rewrite select_all_rows, Hv. unfold lift, py_getitem.
  destruct Hbad as [Ht | [[v [Ht Hc]] | Hi]].
  - rewrite Ht. simpl. split; [eexists; reflexivity | split; reflexivity].
  - rewrite Ht.
    destruct v; try discriminate; simpl;
      (split; [eexists; reflexivity | split; reflexivity]).
  - destruct (dict_get "total" r) as [v |]; simpl;
      [| split; [eexists; reflexivity | split; reflexivity]].
    destruct (py_succ v); simpl;
      [| split; [eexists; reflexivity | split; reflexivity]].
    rewrite Hi. simpl. split; [eexists; reflexivity | split; reflexivity].
Qed.

Lemma increment_unusable_record_witness :
  store (snd (App.dispatch cfg_no_templates
                (request POST ["api"; "visitas"] None PayloadAbsent)
                (mkWorld (mkStore [] [] [[("id", JNum 1); ("total", JNull)]] 2)
                         [] [] [] "2025-01-15T10:00:00")))
  = mkStore [] [] [[("id", JNum 1); ("total", JNull)]] 2.
Proof.
  refine (proj1 (proj2 (increment_unusable_record cfg_no_templates
            (request POST ["api"; "visitas"] None PayloadAbsent)
            (mkWorld (mkStore [] [] [[("id", JNum 1); ("total", JNull)]] 2)
                     [] [] [] "2025-01-15T10:00:00")
            [("id", JNum 1); ("total", JNull)] []
            (conj eq_refl eq_refl) (Forall_nil _) eq_refl _))).
  right. left. exists JNull. split; reflexivity.
Defined.

(** ** The session of app.py *)

Lemma dict_pop_set : forall k v d,
  dict_get k d = None -> dict_pop k (dict_set k v d) = d.
Proof.
  intros k v d. induction d as [| [k' v'] d IH]; simpl; intros H.
  - now rewrite String.eqb_refl.
  - destruct (String.eqb k k') eqn:E; [discriminate |].
    simpl. rewrite E. now rewrite IH.
Qed.

Lemma dashboard_logged_in : forall cfg w flag,
  dict_get "logged_in" (session w) = Some flag -> truthy flag = true ->
  status (fst (App.admin_dashboard cfg w)) = 200
  /\ snd (App.admin_dashboard cfg w) = w.
Proof.
  intros cfg w flag Hs Ht. unfold App.admin_dashboard. rewrite Hs, Ht.
  repeat break_match; split; reflexivity.
Qed.

(** Log in, open the dashboard, log out.  For a client whose session has
    no [logged_in] entry: GET /admin is redirected to the login page; after
    a POST / with the admin secret as password it is answered 200; after
    POST /admin/logout the session is what it was before the login, and
    GET /admin is redirected again. *)
Theorem login_dashboard_logout :
  forall cfg login dash logout w,
    App.url_map (path login) = Some App.EIndex -> method login = POST ->
    form_password login = Some (ADMIN_PASSWORD cfg) ->
    ADMIN_PASSWORD cfg <> "" ->
    App.url_map (path dash) = Some App.EAdmin -> method dash = GET ->
    App.url_map (path logout) = Some App.EAdminLogout ->
    method logout = POST ->
    dict_get "logged_in" (session w) = None ->
    App.dispatch cfg dash w = (redirect "/", w)
    /\ status (fst (App.dispatch cfg dash
                      (snd (App.dispatch cfg login w)))) = 200
    /\ snd (App.dispatch cfg logout (snd (App.dispatch cfg login w))) = w
    /\ fst (App.dispatch cfg logout (snd (App.dispatch cfg login w))) =
       redirect "/".
Proof.
  intros cfg login dash logout w Hel Hml Hf Hne Hed Hmd Heo Hmo Hs.
  rewrite (right_password_logs_in cfg login w Hel Hml Hf Hne).
  assert (Hd : App.dispatch cfg dash = App.admin_dashboard cfg).
  { unfold App.dispatch. now rewrite Hed, Hmd. }
  assert (Ho : App.dispatch cfg logout = App.admin_logout).
  { unfold App.dispatch. now rewrite Heo, Hmo. }
  rewrite Hd, Ho. cbn [snd]. split; [| split; [| split]].
  - unfold App.admin_dashboard. now rewrite Hs.
  - apply (dashboard_logged_in cfg _ (JBool true)); [| reflexivity].
    simpl. apply dict_get_set_same.
  - unfold App.admin_logout, pop_session, set_session. simpl.
    rewrite (dict_pop_set _ _ _ Hs). now destruct w.
  - reflexivity.
Qed.

Lemma login_dashboard_logout_witness :
  status (fst (App.dispatch cfg_templates
                 (request GET ["admin"] None PayloadAbsent)
                 (snd (App.dispatch cfg_templates (login_request "admin123")
                         empty_world)))) = 200.
Proof.
  refine (proj1 (proj2 (login_dashboard_logout cfg_templates
            (login_request "admin123")
            (request GET ["admin"] None PayloadAbsent)
            (request POST ["admin"; "logout"] None PayloadAbsent)
            empty_world eq_refl eq_refl eq_refl _ eq_refl eq_refl eq_refl
            eq_refl eq_refl))).
  simpl. discriminate.
Defined.

(** A login POST to the root route without a password field, or with an
    empty one, never logs in -- not even when the configured admin secret
    is itself empty: the world is left as it was and the answer is the
    login page again or the 401, never the redirect to the dashboard. *)
Theorem empty_password_never_logs_in :
  forall cfg req w,
    App.url_map (path req) = Some App.EIndex ->
    method req = POST ->
    form_password req = None \/ form_password req = Some "" ->
    snd (App.dispatch cfg req w) = w
    /\ (status (fst (App.dispatch cfg req w)) = 200 \/
        status (fst (App.dispatch cfg req w)) = 401).
Proof.
  intros cfg req w He Hm Hf.
  rewrite (dispatch_index_post cfg req He Hm). unfold App.index.
  rewrite Hm.
  assert (H : forall w0, snd (App.invalid_password cfg w0) = w0
                /\ (status (fst (App.invalid_password cfg w0)) = 200 \/
                    status (fst (App.invalid_password cfg w0)) = 401)).
  { intros w0. unfold App.invalid_password.
    repeat break_match; simpl; auto. }
  destruct Hf as [-> | ->]; simpl; apply H.
Qed.

Lemma empty_password_never_logs_in_witness :
  snd (App.dispatch (mkConfig "" (fun _ => false)
                       (fun name _ => Raise name) false)
         (login_request "") empty_world)
  = empty_world.
Proof.
  exact (proj1 (empty_password_never_logs_in
                  (mkConfig "" (fun _ => false) (fun name _ => Raise name)
                            false)
                  (login_request "") empty_world eq_refl eq_refl
                  (or_intror eq_refl))).
Defined.

(** ** The session of admin.py *)

(** The login view of admin.py logs in exactly when the form carries a
    password equal to the admin secret: then, and only then, the session
    gets its [authenticated] entry and the answer is the redirect to the
    dashboard.  A missing field never logs in; an empty password does
    when the secret is empty. *)
Theorem admin_login_iff :
  forall cfg req w,
    method req = POST ->
    (form_password req = Some (ADMIN_PASSWORD cfg) ->
     Admin.login cfg req w =
       (redirect "/admin", set_session "authenticated" (JBool true) w))
    /\ (form_password req <> Some (ADMIN_PASSWORD cfg) ->
        snd (Admin.login cfg req w) = w
        /\ fst (Admin.login cfg req w) <> redirect "/admin").
Proof.
  intros cfg req w Hm. unfold Admin.login. rewrite Hm. split.
  - intros ->. now rewrite String.eqb_refl.
  - intros Hne.
    assert (Hf : match form_password req with
                 | Some password => String.eqb password (ADMIN_PASSWORD cfg)
                 | None => false
                 end = false).
    { destruct (form_password req) as [p |]; [| reflexivity].
      destruct (String.eqb p (ADMIN_PASSWORD cfg)) eqn:E; [| reflexivity].
      apply String.eqb_eq in E. subst. contradiction. }
    rewrite Hf. unfold Admin.render, Admin.internal_error.
    destruct (render_template cfg "login.html" (Some "Invalid password"));
      simpl; split; try reflexivity; discriminate.
Qed.

Lemma admin_login_iff_witness :
  Admin.login (mkConfig "" (fun _ => true) (fun name _ => Ok name) false)
    (login_request "") empty_world
  = (redirect "/admin", set_session "authenticated" (JBool true) empty_world).
Proof.
  exact (proj1 (admin_login_iff
                  (mkConfig "" (fun _ => true) (fun name _ => Ok name) false)
                  (login_request "") empty_world eq_refl) eq_refl).
Defined.

(** The session check of admin.py, around any view: without an
    [authenticated] entry the view does not run and the answer is the
    redirect to the login page (a 302, not a 401); after a login with
    the admin secret the view runs; after the logout, which empties the
    whole session, it is behind the redirect again. *)
Theorem admin_session_gate :
  forall cfg (f : Handler) login w,
    method login = POST ->
    form_password login = Some (ADMIN_PASSWORD cfg) ->
    dict_has "authenticated" (session w) = false ->
    Admin.login_required f w = (redirect "/admin/login", w)
    /\ Admin.login_required f (snd (Admin.login cfg login w)) =
       f (snd (Admin.login cfg login w))
    /\ session (snd (Admin.logout (snd (Admin.login cfg login w)))) = []
    /\ Admin.login_required f
         (snd (Admin.logout (snd (Admin.login cfg login w)))) =
       (redirect "/admin/login",
        snd (Admin.logout (snd (Admin.login cfg login w)))).
Proof.
  intros cfg f login w Hm Hf Hs.
  unfold Admin.login. rewrite Hm, Hf, String.eqb_refl. cbn [snd].
  split; [| split; [| split]].
  - unfold Admin.login_required. now rewrite Hs.
  - unfold Admin.login_required, set_session, dict_has. simpl.
    now rewrite dict_get_set_same.
  - reflexivity.
  - reflexivity.
Qed.

Lemma admin_session_gate_witness :
  Admin.admin_delete_project 1 projects_world
  = (redirect "/admin/login", projects_world).
Proof.
  exact (proj1 (admin_session_gate cfg_templates
                  (App.delete Projetos "Project deleted successfully" 1)
                  (login_request "admin123") projects_world
                  eq_refl eq_refl eq_refl)).
Defined.

(** ** What a request can change *)

(** Without the admin secret nothing a client sends changes a project
    or a certificate: for a request the guard would not let through,
    on whatever route and with whatever method and body, the two tables
    are after the request what they were before; the whole store is,
    unless the request is the POST of the visit counter. *)
Theorem unauthorized_cannot_write :
  forall cfg req w,
    authorized cfg req = false ->
    projetos (store (snd (App.dispatch cfg req w))) = projetos (store w)
    /\ certificados (store (snd (App.dispatch cfg req w))) =
       certificados (store w)
    /\ (~ is_visit_post req ->
        store (snd (App.dispatch cfg req w)) = store w).
Proof.
  intros cfg req w Ha. unfold is_visit_post, App.dispatch.
  destruct (App.url_map (path req)) as [e |];
    [| repeat split; reflexivity].
  destruct e, (method req);
    try rewrite require_auth_cases, Ha;
    try (repeat split; reflexivity);
    try (settle_views; repeat split; reflexivity).
  settle_views; repeat split; try reflexivity;
    intros Hn; exfalso; apply Hn; split; reflexivity.
Qed.

Lemma unauthorized_cannot_write_witness :
  projetos (store (snd (App.dispatch cfg_no_templates
                          (request DELETE ["api"; "projetos"; "1"]
                                   (Some "Bearer guess") PayloadAbsent)
                          projects_world)))
  = projetos (store projects_world).
Proof.
  exact (proj1 (unauthorized_cannot_write cfg_no_templates
                  (request DELETE ["api"; "projetos"; "1"]
                           (Some "Bearer guess") PayloadAbsent)
                  projects_world eq_refl)).
Defined.

(** Only the login POST and the logout write the session: on every other
    route the session after the request is the session before it,
    whatever the storage service does. *)
Theorem api_keeps_session :
  forall cfg req w e,
    App.url_map (path req) = Some e ->
    session_route e = false ->
    session (snd (App.dispatch cfg req w)) = session w.
Proof.
  intros cfg req w e He Hs. unfold App.dispatch. rewrite He.
  destruct e, (method req); try discriminate;
    try rewrite require_auth_cases;
    try destruct (authorized cfg req);
    try reflexivity; settle_views; reflexivity.
Qed.

Lemma api_keeps_session_witness :
  session (snd (App.dispatch cfg_no_templates
                  (request POST ["api"; "visitas"] None PayloadAbsent)
                  (failing_world "timeout")))
  = session (failing_world "timeout").
Proof.
  exact (api_keeps_session cfg_no_templates
           (request POST ["api"; "visitas"] None PayloadAbsent)
           (failing_world "timeout") App.EVisitas eq_refl eq_refl).
Defined.

(** A request sends at most two queries to the storage service, and
    at most one unless it is the POST of the visit counter; the log of
    queries only grows. *)
Theorem at_most_two_queries :
  forall cfg req w,
    exists qs,
      issued (snd (App.dispatch cfg req w)) = issued w ++ qs
      /\ (List.length qs <= 2)%nat
      /\ (is_visit_post req \/ (List.length qs <= 1)%nat).
Proof.
  intros cfg req w.
  assert (Hgen : forall f : Handler,
            (forall w0, exists qs,
                issued (snd (f w0)) = issued w0 ++ qs
                /\ (List.length qs <= 1)%nat) ->
            exists qs,
              issued (snd (f w)) = issued w ++ qs
              /\ (List.length qs <= 2)%nat
              /\ (is_visit_post req \/ (List.length qs <= 1)%nat)).
  { intros f Hf. destruct (Hf w) as [qs [H1 H2]]. exists qs.
    split; [exact H1 | split; [lia | now right]]. }
  assert (Hguard : forall f : Handler,
            (forall w0, exists qs,
                issued (snd (f w0)) = issued w0 ++ qs
                /\ (List.length qs <= 1)%nat) ->
            forall w0, exists qs,
                issued (snd (App.require_auth cfg f req w0)) = issued w0 ++ qs
                /\ (List.length qs <= 1)%nat).
  { intros f Hf w0. rewrite require_auth_cases.
    destruct (authorized cfg req); [apply Hf |].
    exists []. split; [now rewrite app_nil_r | simpl; lia]. }
  unfold App.dispatch.
  destruct (App.url_map (path req)) as [e |] eqn:He.
  2:{ apply Hgen. intros w0. unfold App.not_found. log_grows. }
  destruct e, (method req) eqn:Hm;
    try (apply Hgen; try apply Hguard; intros w0; settle_views; log_grows).
  settle_views;
    first
      [ exists []; split; [now rewrite app_nil_r |];
        split; [simpl; lia | left; split; assumption]
      | eexists [_]; split; [reflexivity |];
        split; [simpl; lia | left; split; assumption]
      | eexists [_; _]; split; [now rewrite <- app_assoc |];
        split; [simpl; lia | left; split; assumption] ].
Qed.

(** ** Reading and updating by id *)

Lemma json_eqb_num : forall (x : json) (n : Z),
  json_eqb x (JNum n) = true -> x = JNum n.
Proof.
  intros [| b | m | s | l | kvs] n H; simpl in H; try discriminate.
  apply Z.eqb_eq in H. now subst.
Qed.

Lemma filter_head : forall (A : Type) (p : A -> bool) (l : list A) x rest,
  filter p l = x :: rest -> In x l /\ p x = true.
Proof.
  intros A p l x rest H. apply filter_In. rewrite H. now left.
Qed.

(** A GET of one record answered 200 returns a stored row of the table
    of the route whose [id] is the id of the path: the first one, as
    the table has them, that carries it. *)
Theorem get_returns_requested_id :
  forall cfg req w e t id,
    App.url_map (path req) = Some e ->
    resource e = Some (t, id) ->
    method req = GET ->
    status (fst (App.dispatch cfg req w)) = 200 ->
    exists r,
      body (fst (App.dispatch cfg req w)) = BJson (JObj r)
      /\ In r (rows_of t (store w))
      /\ dict_get "id" r = Some (JNum id).
Proof.
  intros cfg req w e t id He Hr Hm.
  destruct (dispatch_get_one cfg req e t id He Hr Hm) as [missing Hg].
  rewrite Hg. unfold App.get_one, try_except, bind, execute.
  assert (Hrow : forall r rest,
            filter (col_eq "id" (JNum id)) (rows_of t (store w)) = r :: rest ->
            In r (rows_of t (store w)) /\ dict_get "id" r = Some (JNum id)).
  { intros r rest Hf. apply filter_head in Hf. destruct Hf as [Hin Hc].
    split; [exact Hin |]. unfold col_eq in Hc.
    destruct (dict_get "id" r) as [x |]; [| discriminate].
    now rewrite (json_eqb_num x id Hc). }
  destruct (faults w) as [| [msg |] fs]; simpl;
    try (intros H; discriminate);
    destruct (filter (col_eq "id" (JNum id)) (rows_of t (store w)))
      as [| r rest] eqn:Hf; simpl;
    try (intros H; discriminate);
    intros _; exists r; (split; [reflexivity | exact (Hrow r rest eq_refl)]).
Qed.

Lemma get_returns_requested_id_witness :
  exists r,
    body (fst (App.dispatch cfg_no_templates
                 (request GET ["api"; "projetos"; "1"] None PayloadAbsent)
                 projects_world)) = BJson (JObj r)
    /\ In r (rows_of Projetos (store projects_world))
    /\ dict_get "id" r = Some (JNum 1).
Proof.
  exact (get_returns_requested_id cfg_no_templates
           (request GET ["api"; "projetos"; "1"] None PayloadAbsent)
           projects_world (App.EProjeto 1) Projetos 1
           eq_refl eq_refl eq_refl eq_refl).
Defined.

Lemma map_unmatched : forall (p : row -> bool) (f : row -> row) rs,
  (forall x, In x rs -> p x = false) ->
  map (fun r => if p r then f r else r) rs = rs.
Proof.
  intros p f rs. induction rs as [| r rs IH]; intros H; simpl.
  - reflexivity.
  - rewrite (H r (or_introl eq_refl)), IH; [reflexivity |].
    intros x Hx. apply H. now right.
Qed.

(** An authenticated PUT with a JSON object on an id no row carries,
    the storage service answering, is answered 404 and changes no row:
    the update is sent, it matches nothing, and no record is created in
    its place. *)
Theorem update_absent_changes_nothing :
  forall cfg req w e t id d,
    App.url_map (path req) = Some e ->
    resource e = Some (t, id) ->
    method req = PUT ->
    authorized cfg req = true ->
    payload req = PayloadJson (JObj d) ->
    answers 1 w ->
    absent t id w ->
    status (fst (App.dispatch cfg req w)) = 404
    /\ store (snd (App.dispatch cfg req w)) = store w
    /\ issued (snd (App.dispatch cfg req w)) =
       issued w ++ [UpdateEq t (update_patch w d) "id" (JNum id)].
Proof.
  intros cfg req w e t id d He Hr Hm Ha Hp Hw Hab.
  destruct (dispatch_update cfg req e t id w He Hr Hm Ha) as [missing Hd].
  rewrite Hd, (update_sent cfg t missing id req d w Hp Hw).
  rewrite (filter_none _ _ _ Hab). cbn [fst snd map].
  split; [reflexivity |]. split; [| reflexivity].
  unfold after. cbn [store]. unfold absent in Hab.
  destruct t; simpl in *; rewrite (map_unmatched _ _ _ Hab);
    now destruct (store w).
Qed.

Lemma update_absent_changes_nothing_witness :
  store (snd (App.dispatch cfg_no_templates
                (request PUT ["api"; "projetos"; "99999"] bearer_admin
                   (PayloadJson (JObj [("titulo", JStr "Ghost")])))
                projects_world))
  = store projects_world.
Proof.
  refine (proj1 (proj2 (update_absent_changes_nothing cfg_no_templates
            (request PUT ["api"; "projetos"; "99999"] bearer_admin
               (PayloadJson (JObj [("titulo", JStr "Ghost")])))
            projects_world (App.EProjeto 99999) Projetos 99999
            [("titulo", JStr "Ghost")]
            eq_refl eq_refl eq_refl eq_refl eq_refl (Forall_nil _) _))).
  intros r [<- | []]. reflexivity.
Defined.
